(** * config2spec: the policy value model (policies/policy.py)

    A shallow embedding of [PolicyType], [PolicySource], [PolicyDestination],
    [Policy] and its three variants, together with the fragment of the Python
    runtime they rely on: exceptions, the dispatch of [==], [<] and [>] over
    the [__eq__], [__lt__] and [__gt__] methods, [str.split], [str.join],
    slicing, [str.isdigit], [int] and [re.match] for the one pattern used.

    Python strings are modelled by [string], a character being a code
    point below 256. Splitting, slicing, comparing and matching do not depend
    on what the characters are; [str.isdigit] and [int] do, and are modelled
    for these code points. *)

From Stdlib Require Import String Ascii List ZArith Bool Lia DecimalString.
Import ListNotations.

Local Open Scope string_scope.

(** ** Exceptions and results *)

Module Py.

Inductive exn : Type :=
| AttributeError
| ValueError
| TypeError
| IndexError.

(** The outcome of evaluating an expression: a value, or a raised exception. *)
Inductive result (A : Type) : Type :=
| Ok (a : A)
| Raise (e : exn).

Arguments Ok {A} a.
Arguments Raise {A} e.

Definition bind {A B : Type} (m : result A) (k : A -> result B) : result B :=
  match m with
  | Ok a => k a
  | Raise e => Raise e
  end.

Definition fmap {A B : Type} (f : A -> B) (m : result A) : result B :=
  bind m (fun a => Ok (f a)).

(** [[f(x) for x in l]]: the elements are evaluated left to right and the
    first exception aborts the comprehension. *)
Fixpoint comprehension {A B : Type} (f : A -> result B) (l : list A)
  : result (list B) :=
  match l with
  | [] => Ok []
  | x :: xs =>
      bind (f x) (fun y => bind (comprehension f xs) (fun ys => Ok (y :: ys)))
  end.

(** ** Strings *)

Definition char_eqb (a b : ascii) : bool := Ascii.eqb a b.

(** [c in s] for a single character [c]. *)
Fixpoint contains (c : ascii) (s : string) : bool :=
  match s with
  | EmptyString => false
  | String a s' => if char_eqb a c then true else contains c s'
  end.

Fixpoint take (n : nat) (s : string) : string :=
  match n, s with
  | S n', String a s' => String a (take n' s')
  | _, _ => EmptyString
  end.

Fixpoint drop (n : nat) (s : string) : string :=
  match n, s with
  | S n', String _ s' => drop n' s'
  | _, _ => s
  end.

(** [s[1:-1]]: everything but the first and the last character; empty when
    [s] has fewer than two characters. *)
Definition slice_1_m1 (s : string) : string :=
  substring 1 (String.length s - 2) s.

(** Prepend a character to the first piece of a split. *)
Definition cons_head (a : ascii) (pieces : list string) : list string :=
  match pieces with
  | [] => [String a EmptyString]
  | h :: t => String a h :: t
  end.

(** [s.split(sep)] for a non-empty separator: the pieces between the
    non-overlapping occurrences of [sep], scanned from the left. [skip]
    counts the characters of an occurrence that are still to be passed
    over. *)
Fixpoint split_from (sep : string) (skip : nat) (s : string) : list string :=
  match s with
  | EmptyString => [EmptyString]
  | String a s' =>
      match skip with
      | S k => split_from sep k s'
      | O =>
          if prefix sep s
          then EmptyString :: split_from sep (String.length sep - 1) s'
          else cons_head a (split_from sep 0 s')
      end
  end.

Definition split (sep : string) (s : string) : list string :=
  split_from sep 0 s.

(** [sep.join(l)]. *)
Definition join (sep : string) (l : list string) : string :=
  String.concat sep l.

(** [a, b = l]: unpacking into exactly two names. *)
Definition unpack2 (l : list string) : result (string * string) :=
  match l with
  | [a; b] => Ok (a, b)
  | _ => Raise ValueError
  end.

(** The decimal digits [0] to [9]. *)
Definition is_ascii_digit (a : ascii) : bool :=
  let n := nat_of_ascii a in
  (48 <=? n)%nat && (n <=? 57)%nat.

(** The characters [str.isdigit] accepts: below code point 256 these are the
    decimal digits and the superscript digits (code points 178, 179, 185). *)
Definition is_digit (a : ascii) : bool :=
  let n := nat_of_ascii a in
  is_ascii_digit a || Nat.eqb n 178 || Nat.eqb n 179 || Nat.eqb n 185.

Fixpoint all_digits (s : string) : bool :=
  match s with
  | EmptyString => true
  | String a s' => is_digit a && all_digits s'
  end.

Fixpoint all_ascii_digits (s : string) : bool :=
  match s with
  | EmptyString => true
  | String a s' => is_ascii_digit a && all_ascii_digits s'
  end.

(** [s.isdigit()]: [s] is not empty and all its characters are digits. *)
Definition isdigit (s : string) : bool :=
  match s with
  | EmptyString => false
  | _ => all_digits s
  end.

(** Every character of [s] is below code point 128. *)
Fixpoint is_ascii (s : string) : bool :=
  match s with
  | EmptyString => true
  | String a s' => (nat_of_ascii a <? 128)%nat && is_ascii s'
  end.

Fixpoint digits_value (acc : Z) (s : string) : Z :=
  match s with
  | EmptyString => acc
  | String a s' =>
      digits_value (10 * acc + Z.of_nat (nat_of_ascii a - 48))%Z s'
  end.

(** The default of [sys.get_int_max_str_digits()]. *)
Definition int_max_str_digits : nat := 4300.

(** [int(s)] on the strings that pass [isdigit]: a run of decimal digits is
    converted unless it is longer than the limit on digits, leading zeros
    counted; a superscript digit is rejected. Both rejections, like that of
    the empty string, are [ValueError]. (The signs, white space and
    underscores that [int] also reads never come behind the [isdigit] test
    under which [from_df] calls it.) *)
Definition int (s : string) : result Z :=
  match s with
  | EmptyString => Raise ValueError
  | _ =>
      if negb (all_ascii_digits s) then Raise ValueError
      else if (int_max_str_digits <? String.length s)%nat then Raise ValueError
      else Ok (digits_value 0%Z s)
  end.

(** [str(n)] for an integer. *)
Definition str_of_int (n : Z) : string :=
  NilZero.string_of_int (Z.to_int n).

(** The line feed character, as a one-character string. *)
Definition newline : string := String "010"%char EmptyString.

(** The last character of a string, if it has one. *)
Fixpoint last_char (s : string) : option ascii :=
  match s with
  | EmptyString => None
  | String a EmptyString => Some a
  | String _ s' => last_char s'
  end.

(** [repr] of a boolean, which is what [format] inserts. *)
Definition str_of_bool (b : bool) : string :=
  if b then "True" else "False".

End Py.

Import Py.

Notation "x <- m ;; k" := (bind m (fun x => k))
  (at level 61, m at next level, right associativity).

(** ** Regular expressions: the fragment used by [PolicyDestination.from_string] *)

Module Re.

(** The pieces the pattern is made of. *)
Inductive token : Type :=
| Bol                                   (* ^ *)
| Eol                                   (* $ *)
| Lit (c : ascii)                       (* a literal character *)
| Group (name : string) (excl : ascii). (* (?P<name>[^excl]+) *)

(** A match object: the named groups, the most recent first. *)
Definition match_object : Type := list (string * string).

(** Length of the longest prefix of [s] free of [c]: how far [[^c]+] can
    reach. *)
Fixpoint span (c : ascii) (s : string) : nat :=
  match s with
  | EmptyString => 0
  | String a s' => if char_eqb a c then 0 else S (span c s')
  end.

(** Greedy repetition with backtracking: the longest candidate first, then
    one character less, down to a single character. *)
Fixpoint try_lengths {A : Type} (k : nat) (f : nat -> option A) : option A :=
  match k with
  | O => None
  | S k' =>
      match f k with
      | Some r => Some r
      | None => try_lengths k' f
      end
  end.

(** [$] without MULTILINE: the end of the string, or just before a newline
    that ends the string. *)
Definition at_end (s : string) : bool :=
  match s with
  | EmptyString => true
  | String a EmptyString => char_eqb a "010"%char
  | _ => false
  end.

(** Match the tokens [p] against [s], the part of the subject that starts at
    offset [pos]. *)
Fixpoint match_at (p : list token) (pos : nat) (s : string) (m : match_object)
  : option match_object :=
  match p with
  | [] => Some m
  | Bol :: p' => if Nat.eqb pos 0 then match_at p' pos s m else None
  | Eol :: p' => if at_end s then match_at p' pos s m else None
  | Lit c :: p' =>
      match s with
      | String a s' => if char_eqb a c then match_at p' (S pos) s' m else None
      | EmptyString => None
      end
  | Group name c :: p' =>
      try_lengths (span c s)
        (fun k => match_at p' (pos + k) (drop k s) ((name, take k s) :: m))
  end.

(** [re.match(p, s)]: the match is anchored at the start of [s]. *)
Definition re_match (p : list token) (s : string) : option match_object :=
  match_at p 0 s [].

(** [m.group(name)]. *)
Fixpoint group (m : match_object) (name : string) : result string :=
  match m with
  | [] => Raise IndexError
  | (n, text) :: m' => if String.eqb n name then Ok text else group m' name
  end.

End Re.

(** ** The objects of policy.py *)

(** class PolicyType(Enum) *)
Inductive PolicyType : Type :=
| Reachability
| Isolation
| Waypoint
| LoadBalancingSimple
| LoadBalancingEdgeDisjoint
| LoadBalancingNodeDisjoint.

(** The members in the order the class declares them. *)
Definition members : list PolicyType :=
  [Reachability; Isolation; Waypoint; LoadBalancingSimple;
   LoadBalancingEdgeDisjoint; LoadBalancingNodeDisjoint].

(** [self.value] *)
Definition value_of (t : PolicyType) : Z :=
  match t with
  | Reachability => 1
  | Isolation => 2
  | Waypoint => 3
  | LoadBalancingSimple => 4
  | LoadBalancingEdgeDisjoint => 5
  | LoadBalancingNodeDisjoint => 6
  end.

(** [self.name] *)
Definition name_of (t : PolicyType) : string :=
  match t with
  | Reachability => "Reachability"
  | Isolation => "Isolation"
  | Waypoint => "Waypoint"
  | LoadBalancingSimple => "LoadBalancingSimple"
  | LoadBalancingEdgeDisjoint => "LoadBalancingEdgeDisjoint"
  | LoadBalancingNodeDisjoint => "LoadBalancingNodeDisjoint"
  end.

Definition PolicyType_eq_dec (a b : PolicyType) : {a = b} + {a <> b}.
Proof. decide equality. Defined.

(** [a is b] on members, which are singletons. *)
Definition same_member (a b : PolicyType) : bool :=
  if PolicyType_eq_dec a b then true else false.

(** The place of a member in the declaration. *)
Fixpoint index_in (l : list PolicyType) (t : PolicyType) : nat :=
  match l with
  | [] => 0
  | x :: l' => if same_member x t then 0 else S (index_in l' t)
  end.

Definition position (t : PolicyType) : nat := index_in members t.

(** The kinds [get_policy] has a case for. *)
Definition implemented : list PolicyType :=
  [Reachability; Isolation; Waypoint; LoadBalancingSimple].

(** class PolicySource *)
Record PolicySource : Type := mkPolicySource { src_router : string }.

(** class PolicyDestination *)
Record PolicyDestination : Type := mkPolicyDestination {
  router : string;
  interface : string;
  subnet : string
}.

(** The objects that are stored in the fields of a policy or handed to the
    factory: [None], integers, strings, kinds, sources and destinations. *)
Inductive value : Type :=
| VNone
| VInt (n : Z)
| VStr (s : string)
| VPolicyType (t : PolicyType)
| VSource (s : PolicySource)
| VDestination (d : PolicyDestination).

(** Policy objects, one constructor per class, with the arguments of its
    [__init__]. *)
Inductive policy : Type :=
| Policy (type : value) (sources destinations : list value) (negate : bool)
| ReachabilityPolicy (sources destinations : list value) (negate : bool)
| LoadBalancingPolicy (sources destinations : list value) (num_paths : value)
| WaypointPolicy (sources destinations : list value) (waypoints : value).

Inductive object : Type :=
| OValue (v : value)
| OPolicy (p : policy).

Coercion OValue : value >-> object.
Coercion OPolicy : policy >-> object.

(** *** Attributes *)

(** The four fields [Policy.__init__] sets; the variants pass it their fixed
    kind string, and the two that take no [negate] leave it at its default. *)
Definition policy_type (p : policy) : value :=
  match p with
  | Policy t _ _ _ => t
  | ReachabilityPolicy _ _ _ => VStr "reachability"
  | LoadBalancingPolicy _ _ _ => VStr "loadbalancing"
  | WaypointPolicy _ _ _ => VStr "waypoint"
  end.

Definition policy_sources (p : policy) : list value :=
  match p with
  | Policy _ s _ _ | ReachabilityPolicy s _ _
  | LoadBalancingPolicy s _ _ | WaypointPolicy s _ _ => s
  end.

Definition policy_destinations (p : policy) : list value :=
  match p with
  | Policy _ _ d _ | ReachabilityPolicy _ d _
  | LoadBalancingPolicy _ d _ | WaypointPolicy _ d _ => d
  end.

Definition policy_negate (p : policy) : bool :=
  match p with
  | Policy _ _ _ n | ReachabilityPolicy _ _ n => n
  | LoadBalancingPolicy _ _ _ | WaypointPolicy _ _ _ => false
  end.

(** [other.<field>] on an arbitrary object: only policies have these. *)
Definition attr {A : Type} (field : policy -> A) (other : object) : result A :=
  match other with
  | OPolicy p => Ok (field p)
  | OValue _ => Raise AttributeError
  end.

Definition attr_num_paths (other : object) : result value :=
  match other with
  | OPolicy (LoadBalancingPolicy _ _ n) => Ok n
  | _ => Raise AttributeError
  end.

Definition attr_waypoints (other : object) : result value :=
  match other with
  | OPolicy (WaypointPolicy _ _ w) => Ok w
  | _ => Raise AttributeError
  end.

(** *** Classes *)

Inductive class : Type :=
| NoneType | Int | Str
| CPolicyType | CPolicySource | CPolicyDestination
| CPolicy | CReachabilityPolicy | CLoadBalancingPolicy | CWaypointPolicy.

Definition type_of (o : object) : class :=
  match o with
  | OValue VNone => NoneType
  | OValue (VInt _) => Int
  | OValue (VStr _) => Str
  | OValue (VPolicyType _) => CPolicyType
  | OValue (VSource _) => CPolicySource
  | OValue (VDestination _) => CPolicyDestination
  | OPolicy (Policy _ _ _ _) => CPolicy
  | OPolicy (ReachabilityPolicy _ _ _) => CReachabilityPolicy
  | OPolicy (LoadBalancingPolicy _ _ _) => CLoadBalancingPolicy
  | OPolicy (WaypointPolicy _ _ _) => CWaypointPolicy
  end.

(** [sub] is a subclass of [sup] and not [sup] itself. *)
Definition proper_subclass (sub sup : class) : bool :=
  match sub, sup with
  | CReachabilityPolicy, CPolicy
  | CLoadBalancingPolicy, CPolicy
  | CWaypointPolicy, CPolicy => true
  | _, _ => false
  end.

(** *** Rendering: [__str__] *)

Definition PolicyType___str__ (self : PolicyType) : string :=
  "PolicyType." ++ name_of self.

Definition PolicySource___str__ (self : PolicySource) : string :=
  src_router self.

Definition PolicyDestination___str__ (self : PolicyDestination) : string :=
  router self ++ ":" ++ interface self ++ " (" ++ subnet self ++ ")".

(** [str(v)], which is also what [format] inserts for [{}]. *)
Definition str (v : value) : string :=
  match v with
  | VNone => "None"
  | VInt n => str_of_int n
  | VStr s => s
  | VPolicyType t => PolicyType___str__ t
  | VSource s => PolicySource___str__ s
  | VDestination d => PolicyDestination___str__ d
  end.

Definition Policy___str__ (self : policy) : string :=
  let sources_str := "{" ++ join ", " (map str (policy_sources self)) ++ "}" in
  let destinations_str :=
    "{" ++ join ", " (map str (policy_destinations self)) ++ "}" in
  str (policy_type self) ++ " policy: " ++ sources_str ++ "->"
    ++ destinations_str ++ ", negate=" ++ str_of_bool (policy_negate self).

(** [%d]: an integer is required. *)
Definition format_d (v : value) : result string :=
  match v with
  | VInt n => Ok (str_of_int n)
  | _ => Raise TypeError
  end.

Definition LoadBalancingPolicy___str__ (self : policy) (num_paths : value)
  : result string :=
  let output := Policy___str__ self in
  d <- format_d num_paths ;;
  Ok (output ++ " - NumPaths " ++ d).

Definition WaypointPolicy___str__ (self : policy) (waypoints : value)
  : result string :=
  let output := Policy___str__ self in
  Ok (output ++ " - Waypoints " ++ str waypoints).

(** [str(p)] for a policy: the [__str__] of its class. *)
Definition render (p : policy) : result string :=
  match p with
  | Policy _ _ _ _ | ReachabilityPolicy _ _ _ => Ok (Policy___str__ p)
  | LoadBalancingPolicy _ _ n => LoadBalancingPolicy___str__ p n
  | WaypointPolicy _ _ w => WaypointPolicy___str__ p w
  end.

(** Policy.get_coverage *)
Definition get_coverage (self : policy) : nat :=
  List.length (policy_sources self) * List.length (policy_destinations self).

(** *** Equality: the [__eq__] methods and the [==] operator

    A method answers [Some b], or [None] for [NotImplemented]. *)

(** [object.__eq__], which [Enum] inherits: identity. Members are singletons,
    so a member is identical to the same member only. *)
Definition Enum___eq__ (self : PolicyType) (other : object)
  : result (option bool) :=
  match other with
  | OValue (VPolicyType o) =>
      if same_member self o then Ok (Some true) else Ok None
  | _ => Ok None
  end.

Definition PolicyType___eq__ (self : PolicyType) (other : object)
  : result (option bool) :=
  match other with
  | OValue (VStr s) =>
      let attempt :=
        parts <- unpack2 (split "." s) ;;
        let (enum_name, option_name) := parts in
        Ok (String.eqb enum_name "PolicyType"
            && String.eqb option_name (name_of self)) in
      match attempt with
      | Ok true => Ok (Some true)
      | Ok false => Enum___eq__ self other
      | Raise ValueError => Enum___eq__ self other   (* except ValueError: pass *)
      | Raise e => Raise e
      end
  | _ => Enum___eq__ self other
  end.

Definition PolicySource___eq__ (self : PolicySource) (other : object)
  : result (option bool) :=
  match other with
  | OValue (VSource o) => Ok (Some (String.eqb (src_router self) (src_router o)))
  | _ => Ok (Some false)
  end.

Definition PolicyDestination___eq__ (self : PolicyDestination) (other : object)
  : result (option bool) :=
  match other with
  | OValue (VDestination o) =>
      Ok (Some (String.eqb (router self) (router o)
                && String.eqb (interface self) (interface o)
                && String.eqb (subnet self) (subnet o)))
  | _ => Ok (Some false)
  end.

(** The [__eq__] of the class of [self], for the objects stored in fields. *)
Definition value___eq__ (self : value) (other : object) : result (option bool) :=
  match self with
  | VNone =>
      match other with OValue VNone => Ok (Some true) | _ => Ok None end
  | VInt n =>
      match other with OValue (VInt m) => Ok (Some (Z.eqb n m)) | _ => Ok None end
  | VStr s =>
      match other with
      | OValue (VStr t) => Ok (Some (String.eqb s t))
      | _ => Ok None
      end
  | VPolicyType t => PolicyType___eq__ t other
  | VSource s => PolicySource___eq__ s other
  | VDestination d => PolicyDestination___eq__ d other
  end.

(** The operator: the first method that does not decline decides. When both
    decline, [==] falls back on identity; the methods above decline on
    distinct objects only, so that fallback is [False]. *)
Definition richcompare_eq (first second : result (option bool)) : result bool :=
  r <- first ;;
  match r with
  | Some b => Ok b
  | None =>
      r' <- second ;;
      match r' with
      | Some b => Ok b
      | None => Ok false
      end
  end.

(** [v == w] on field values; none of their classes derives from another. *)
Definition value_eq (v w : value) : result bool :=
  richcompare_eq (value___eq__ v (OValue w)) (value___eq__ w (OValue v)).

(** [l1 == l2] on lists: different lengths are unequal, otherwise the items
    are compared in order up to the first unequal pair. (The identity
    shortcut the interpreter takes on each pair is not observable: every
    field value is equal to itself.) *)
Fixpoint list_items_eq (l1 l2 : list value) : result bool :=
  match l1, l2 with
  | [], [] => Ok true
  | x :: xs, y :: ys =>
      b <- value_eq x y ;;
      if b then list_items_eq xs ys else Ok false
  | _, _ => Ok false
  end.

Definition list___eq__ (l1 l2 : list value) : result bool :=
  if Nat.eqb (List.length l1) (List.length l2)
  then list_items_eq l1 l2
  else Ok false.

Definition Policy___eq__ (self : policy) (other : object) : result bool :=
  t <- attr policy_type other ;;
  b <- value_eq (policy_type self) t ;;
  if negb b then Ok false else
  s <- attr policy_sources other ;;
  b <- list___eq__ (policy_sources self) s ;;
  if negb b then Ok false else
  d <- attr policy_destinations other ;;
  b <- list___eq__ (policy_destinations self) d ;;
  if negb b then Ok false else
  n <- attr policy_negate other ;;
  Ok (Bool.eqb (policy_negate self) n).

Definition LoadBalancingPolicy___eq__ (self : policy) (num_paths : value)
    (other : object) : result bool :=
  b <- Policy___eq__ self other ;;
  if b then (n <- attr_num_paths other ;; value_eq num_paths n) else Ok false.

Definition WaypointPolicy___eq__ (self : policy) (waypoints : value)
    (other : object) : result bool :=
  b <- Policy___eq__ self other ;;
  if b then (w <- attr_waypoints other ;; value_eq waypoints w) else Ok false.

(** The [__eq__] of the class of a policy; [ReachabilityPolicy] inherits the
    base one. *)
Definition policy___eq__ (self : policy) (other : object) : result bool :=
  match self with
  | Policy _ _ _ _ | ReachabilityPolicy _ _ _ => Policy___eq__ self other
  | LoadBalancingPolicy _ _ n => LoadBalancingPolicy___eq__ self n other
  | WaypointPolicy _ _ w => WaypointPolicy___eq__ self w other
  end.

Definition object___eq__ (self other : object) : result (option bool) :=
  match self with
  | OValue v => value___eq__ v other
  | OPolicy p => b <- policy___eq__ p other ;; Ok (Some b)
  end.

(** [a == b]. When the class of [b] derives from the class of [a], the
    method of [b] is asked first. *)
Definition py_eq (a b : object) : result bool :=
  if proper_subclass (type_of b) (type_of a)
  then richcompare_eq (object___eq__ b a) (object___eq__ a b)
  else richcompare_eq (object___eq__ a b) (object___eq__ b a).

(** *** Hashing *)

Section Hashing.

(** The hash of the interpreter on strings and on integers. *)
Variable hash_str : string -> Z.
Variable hash_int : Z -> Z.

Definition PolicyType___hash__ (self : PolicyType) : Z :=
  hash_int (value_of self).

Definition PolicySource___hash__ (self : PolicySource) : Z :=
  hash_str (PolicySource___str__ self).

Definition PolicyDestination___hash__ (self : PolicyDestination) : Z :=
  hash_str (PolicyDestination___str__ self).

(** [hash(p)] for a policy: every class hashes its own [__str__]. *)
Definition policy___hash__ (self : policy) : result Z :=
  s <- render self ;; Ok (hash_str s).

End Hashing.

(** *** Ordering: [__lt__], [__gt__], [__le__], [__ge__] and their operators *)

Inductive order_op : Type := OpLt | OpGt | OpLe | OpGe.

(** The operator asked of the right operand when the left one declines. *)
Definition swapped (op : order_op) : order_op :=
  match op with
  | OpLt => OpGt
  | OpGt => OpLt
  | OpLe => OpGe
  | OpGe => OpLe
  end.

Definition int_order (op : order_op) (a b : Z) : bool :=
  match op with
  | OpLt => Z.ltb a b
  | OpGt => Z.gtb a b
  | OpLe => Z.leb a b
  | OpGe => Z.geb a b
  end.

Definition str_order (op : order_op) (a b : string) : bool :=
  match op with
  | OpLt => String.ltb a b
  | OpGt => String.ltb b a
  | OpLe => String.leb a b
  | OpGe => String.leb b a
  end.

(** The four methods of [PolicyType] share one shape:
    [if self.__class__ is other.__class__: return self.value <op> other.value]
    and [NotImplemented] otherwise. *)
Definition PolicyType_order (op : order_op) (self : PolicyType) (other : object)
  : option bool :=
  match other with
  | OValue (VPolicyType o) => Some (int_order op (value_of self) (value_of o))
  | _ => None
  end.

Definition PolicyType___lt__ := PolicyType_order OpLt.
Definition PolicyType___gt__ := PolicyType_order OpGt.
Definition PolicyType___le__ := PolicyType_order OpLe.
Definition PolicyType___ge__ := PolicyType_order OpGe.

(** [PolicySource] and [PolicyDestination] order by [router] alone. *)
Definition PolicySource_order (op : order_op) (self : PolicySource)
    (other : object) : option bool :=
  match other with
  | OValue (VSource o) => Some (str_order op (src_router self) (src_router o))
  | _ => None
  end.

Definition PolicyDestination_order (op : order_op) (self : PolicyDestination)
    (other : object) : option bool :=
  match other with
  | OValue (VDestination o) => Some (str_order op (router self) (router o))
  | _ => None
  end.

(** The ordering method of the class of [self]; policies define none. *)
Definition object_order (op : order_op) (self other : object) : option bool :=
  match self with
  | OValue VNone => None
  | OValue (VInt n) =>
      match other with OValue (VInt m) => Some (int_order op n m) | _ => None end
  | OValue (VStr s) =>
      match other with OValue (VStr t) => Some (str_order op s t) | _ => None end
  | OValue (VPolicyType t) => PolicyType_order op t other
  | OValue (VSource s) => PolicySource_order op s other
  | OValue (VDestination d) => PolicyDestination_order op d other
  | OPolicy _ => None
  end.

(** [a <op> b]: the method of [a], then the swapped method of [b] (asked
    first when the class of [b] derives from that of [a]); when both decline
    the operator raises [TypeError]. *)
Definition py_order (op : order_op) (a b : object) : result bool :=
  let direct := object_order op a b in
  let reflected := object_order (swapped op) b a in
  let (first, second) :=
    if proper_subclass (type_of b) (type_of a)
    then (reflected, direct) else (direct, reflected) in
  match first, second with
  | Some r, _ => Ok r
  | None, Some r => Ok r
  | None, None => Raise TypeError
  end.

Definition py_lt := py_order OpLt.
Definition py_gt := py_order OpGt.
Definition py_le := py_order OpLe.
Definition py_ge := py_order OpGe.

(** *** PolicyDestination.from_string *)

(** [^(?P<router>[^:]+):(?P<interface>[^ ]+) \((?P<subnet>[^)]+)\)$] *)
Definition pattern : list Re.token :=
  [Re.Bol; Re.Group "router" ":"; Re.Lit ":"; Re.Group "interface" " ";
   Re.Lit " "; Re.Lit "("; Re.Group "subnet" ")"; Re.Lit ")"; Re.Eol].

Definition from_string (s : string) : result value :=
  match Re.re_match pattern s with
  | Some m =>
      router <- Re.group m "router" ;;
      interface <- Re.group m "interface" ;;
      subnet <- Re.group m "subnet" ;;
      Ok (VDestination (mkPolicyDestination router interface subnet))
  | None => Ok VNone
  end.

(** *** The factory *)

(** Policy.get_policy: the policy built, or [None]. *)
Definition get_policy (policy_type : value) (sources destinations : list value)
    (specifics : value) : result (option policy) :=
  b <- value_eq policy_type (VPolicyType Reachability) ;;
  if b then Ok (Some (ReachabilityPolicy sources destinations false)) else
  b <- value_eq policy_type (VPolicyType Isolation) ;;
  if b then Ok (Some (ReachabilityPolicy sources destinations true)) else
  b <- value_eq policy_type (VPolicyType Waypoint) ;;
  if b then Ok (Some (WaypointPolicy sources destinations specifics)) else
  b <- value_eq policy_type (VPolicyType LoadBalancingSimple) ;;
  if b then Ok (Some (LoadBalancingPolicy sources destinations specifics)) else
  Ok None.

(** The row [from_df] reads: [type] and [source] are objects, [Destinations]
    and [specifics] are strings (sliced, split and tested with [isdigit]). *)
Record row : Type := mkRow {
  type : value;
  source : value;
  Destinations : string;
  specifics : string
}.

(** Policy.from_df *)
Definition from_df (df : row) : result (option policy) :=
  let sources := [source df] in
  let str_destinations := split ", " (slice_1_m1 (Destinations df)) in
  destinations <- comprehension from_string str_destinations ;;
  specifics <-
    (if isdigit (specifics df)
     then n <- int (specifics df) ;; Ok (VInt n)
     else Ok (VStr (specifics df))) ;;
  get_policy (type df) sources destinations specifics.

(** *** The documented text form of a destination

    Following the specification, not the code: [<router>:<interface> (<subnet>)]
    with a router free of colons and an interface free of spaces. *)
Definition matches_grammar (s : string) : Prop :=
  exists r i n : string,
    s = r ++ ":" ++ i ++ " (" ++ n ++ ")"
    /\ contains ":" r = false
    /\ contains " " i = false.

(** *** Sample objects *)

Definition r1 : value := VSource (mkPolicySource "r1").

Definition r2_eth0 : value :=
  VDestination (mkPolicyDestination "r2" "eth0" "10.0.0.0/24").

(** A stand-in for the interpreter's string hash. *)
Definition length_hash (s : string) : Z := Z.of_nat (String.length s).

(** Whether the extra field of the one variant is present in the other and
    equal to it: what [LoadBalancingPolicy.__eq__] and [WaypointPolicy.__eq__]
    ask on top of the base comparison. *)
Definition same_extra (p q : policy) : Prop :=
  match p, q with
  | LoadBalancingPolicy _ _ n, LoadBalancingPolicy _ _ n' =>
      value_eq n n' = Ok true
  | WaypointPolicy _ _ w, WaypointPolicy _ _ w' => value_eq w w' = Ok true
  | LoadBalancingPolicy _ _ _, _ | _, LoadBalancingPolicy _ _ _
  | WaypointPolicy _ _ _, _ | _, WaypointPolicy _ _ _ => False
  | _, _ => True
  end.

(** * Properties *)

(** ** Strings *)

Section StringFacts.

Lemma append_nil_r (s : string) : s ++ "" = s.
Proof. induction s as [|a s IH]; simpl; [reflexivity | now rewrite IH]. Qed.

Lemma append_assoc (s t u : string) : (s ++ t) ++ u = s ++ (t ++ u).
Proof. induction s as [|a s IH]; simpl; [reflexivity | now rewrite IH]. Qed.

Lemma take_drop (n : nat) (s : string) : take n s ++ drop n s = s.
Proof.
  revert s; induction n as [|n IH]; intros [|a s]; simpl; try reflexivity.
  now rewrite IH.
Qed.

Lemma take_app (r x : string) : take (String.length r) (r ++ x) = r.
Proof. induction r as [|a r IH]; simpl; [now destruct x | now rewrite IH]. Qed.

Lemma drop_app (r x : string) : drop (String.length r) (r ++ x) = x.
Proof. induction r as [|a r IH]; simpl; [now destruct x | exact IH]. Qed.

Lemma take_nonempty (n : nat) (s : string) :
  n <> 0 -> n <= String.length s -> take n s <> "".
Proof.
  destruct n as [|n]; [congruence|].
  destruct s as [|a s]; simpl; [lia | discriminate].
Qed.

Lemma last_char_app (x : string) (c : ascii) :
  last_char (x ++ String c "") = Some c.
Proof.
  induction x as [|a x IH]; simpl; [reflexivity|].
  rewrite IH. now destruct x.
Qed.

Lemma char_eqb_eq (a b : ascii) : char_eqb a b = true <-> a = b.
Proof. apply Ascii.eqb_eq. Qed.

End StringFacts.

(** ** [str.split] on a single dot *)

Section SplitFacts.

Lemma prefix_nil (s : string) : prefix "" s = true.
Proof. now destruct s. Qed.

Lemma split_dot_step (a : ascii) (s : string) :
  split "." (String a s) =
  if char_eqb a "." then "" :: split "." s else cons_head a (split "." s).
Proof.
  unfold split; cbn [split_from prefix String.length Nat.sub].
  unfold char_eqb.
  destruct (ascii_dec "." a) as [E|E], (Ascii.eqb_spec a ".") as [F|F];
    try congruence.
  now rewrite prefix_nil.
Qed.

Lemma split_from_nonempty (sep : string) (k : nat) (s : string) :
  split_from sep k s <> [].
Proof.
  revert k; induction s as [|a s IH]; intros k; cbn [split_from];
    [discriminate|].
  destruct k; [|apply IH].
  destruct (prefix sep (String a s)); [discriminate|].
  unfold cons_head; destruct (split_from sep 0 s); discriminate.
Qed.

Lemma split_nonempty (sep s : string) : split sep s <> [].
Proof. apply split_from_nonempty. Qed.

(** Joining the pieces with the dot gives the string back. *)
Lemma join_split_dot (s : string) : join "." (split "." s) = s.
Proof.
  induction s as [|a s IH]; [reflexivity|].
  rewrite split_dot_step.
  pose proof (split_nonempty "." s) as NE.
  destruct (char_eqb a ".") eqn:E.
  - apply char_eqb_eq in E; subst a.
    destruct (split "." s) as [|h t]; [congruence|].
    unfold join in *.
    change (String.concat "." ("" :: h :: t)) with ("" ++ "." ++ String.concat "." (h :: t)).
    now rewrite IH.
  - destruct (split "." s) as [|h t]; [congruence|].
    unfold join in *. cbn [cons_head].
    destruct t as [|h' t].
    + cbn [String.concat] in *. now rewrite IH.
    + change (String.concat "." (String a h :: h' :: t))
        with (String a (h ++ "." ++ String.concat "." (h' :: t))).
      change (String.concat "." (h :: h' :: t))
        with (h ++ "." ++ String.concat "." (h' :: t)) in IH.
      now rewrite IH.
Qed.

(** A string that splits in one piece is that piece. *)
Lemma split_dot_single (s x : string) : split "." s = [x] -> x = s.
Proof.
  intros E. rewrite <- (join_split_dot s), E. reflexivity.
Qed.

(** A string that splits in two pieces is the two around one dot. *)
Lemma split_dot_pair (s x y : string) :
  split "." s = [x; y] -> s = x ++ "." ++ y.
Proof.
  intros E. rewrite <- (join_split_dot s) at 1. rewrite E. reflexivity.
Qed.

Lemma split_dot_after_class (n : string) :
  split "." ("PolicyType." ++ n) = "PolicyType" :: split "." n.
Proof.
  cbn [append]. repeat (rewrite split_dot_step; cbn [char_eqb Ascii.eqb Bool.eqb cons_head]).
  destruct (split "." n) eqn:E; [now destruct (split_nonempty "." n) | reflexivity].
Qed.

Lemma split_dot_name (t : PolicyType) : split "." (name_of t) = [name_of t].
Proof. destruct t; reflexivity. Qed.

End SplitFacts.

(** ** Equality on field values *)

Section ValueEquality.

Lemma richcompare_eq_declined (x : result (option bool)) :
  richcompare_eq (Ok None) x = richcompare_eq x (Ok None).
Proof. destruct x as [[b|]|e]; reflexivity. Qed.

Lemma same_member_true (a b : PolicyType) : same_member a b = true <-> a = b.
Proof.
  unfold same_member; destruct (PolicyType_eq_dec a b); split; congruence.
Qed.

Lemma same_member_refl (a : PolicyType) : same_member a a = true.
Proof. now apply same_member_true. Qed.

Lemma PolicyType_str_inj (a b : PolicyType) :
  PolicyType___str__ a = PolicyType___str__ b -> a = b.
Proof. destruct a, b; intros E; try reflexivity; discriminate E. Qed.

(** The string method of [PolicyType.__eq__] accepts exactly the rendering
    of the member, and never lets an exception out. *)
Lemma PolicyType___eq___str (m : PolicyType) (s : string) :
  PolicyType___eq__ m (OValue (VStr s)) =
  if String.eqb s (PolicyType___str__ m) then Ok (Some true) else Ok None.
Proof.
  destruct (String.eqb_spec s (PolicyType___str__ m)) as [->|NE].
  - destruct m; reflexivity.
  - unfold PolicyType___eq__.
    destruct (split "." s) as [|x [|y [|z l]]] eqn:E; try reflexivity.
    cbn [unpack2 bind].
    destruct (String.eqb_spec x "PolicyType") as [->|Hx];
      destruct (String.eqb_spec y (name_of m)) as [->|Hy]; try reflexivity.
    apply split_dot_pair in E. now elim NE.
Qed.

Lemma value_eq_PolicyType_str (m : PolicyType) (s : string) :
  value_eq (VPolicyType m) (VStr s) = Ok (String.eqb s (PolicyType___str__ m)).
Proof.
  unfold value_eq; cbn [value___eq__]. rewrite PolicyType___eq___str.
  now destruct (String.eqb s (PolicyType___str__ m)).
Qed.

Lemma value_eq_str_PolicyType (s : string) (m : PolicyType) :
  value_eq (VStr s) (VPolicyType m) = Ok (String.eqb s (PolicyType___str__ m)).
Proof.
  rewrite <- value_eq_PolicyType_str. unfold value_eq; cbn [value___eq__].
  apply richcompare_eq_declined.
Qed.

Lemma value_eq_PolicyType (a b : PolicyType) :
  value_eq (VPolicyType a) (VPolicyType b) = Ok (same_member a b).
Proof.
  unfold value_eq; cbn.
  destruct (same_member a b) eqn:E; [reflexivity|].
  destruct (same_member b a) eqn:F; [|reflexivity].
  apply same_member_true in F; subst. now rewrite same_member_refl in E.
Qed.

(** [==] between field values always answers. *)
Lemma value_eq_total (v w : value) : exists b, value_eq v w = Ok b.
Proof.
  destruct v as [|n|s|t|s|d], w as [|n'|s'|t'|s'|d'];
    try (eexists; reflexivity);
    try (rewrite value_eq_PolicyType_str; eauto);
    try (rewrite value_eq_str_PolicyType; eauto);
    try (rewrite value_eq_PolicyType; eauto).
  all: unfold value_eq; cbn; destruct (same_member _ _); eauto.
Qed.

(** Bring a hypothesis [value_eq v w = Ok true] on constructors to the
    boolean test it stands for, and discard the pairs of different classes. *)
Ltac value_eq_cases E :=
  try rewrite value_eq_PolicyType_str in E;
  try rewrite value_eq_str_PolicyType in E;
  try rewrite value_eq_PolicyType in E;
  try (unfold value_eq in E; cbn in E; discriminate E);
  try (unfold value_eq in E; cbn in E).

(** Equal field values have the same rendering. *)
Lemma value_eq_str (v w : value) : value_eq v w = Ok true -> str v = str w.
Proof.
  destruct v as [|n|s|t|s|d], w as [|n'|s'|t'|s'|d']; intros E;
    try reflexivity; value_eq_cases E; injection E as E.
  - apply Z.eqb_eq in E. now subst.
  - apply String.eqb_eq in E. now subst.
  - apply String.eqb_eq in E. exact E.
  - apply String.eqb_eq in E. now subst.
  - apply same_member_true in E. now subst.
  - apply String.eqb_eq in E. cbn. unfold PolicySource___str__. exact E.
  - apply andb_true_iff in E as [E E3]. apply andb_true_iff in E as [E1 E2].
    apply String.eqb_eq in E1, E2, E3. cbn. unfold PolicyDestination___str__.
    now rewrite E1, E2, E3.
Qed.

(** Equal field values are formatted alike by [%d]. *)
Lemma value_eq_format_d (v w : value) :
  value_eq v w = Ok true -> format_d v = format_d w.
Proof.
  destruct v as [|n|s|t|s|d], w as [|n'|s'|t'|s'|d']; intros E;
    try reflexivity; value_eq_cases E.
  injection E as E. apply Z.eqb_eq in E. now subst.
Qed.

Lemma list_items_eq_str (l1 l2 : list value) :
  list_items_eq l1 l2 = Ok true -> map str l1 = map str l2.
Proof.
  revert l2; induction l1 as [|x xs IH]; intros [|y ys]; cbn;
    try discriminate; [reflexivity|].
  destruct (value_eq x y) as [[|]|e] eqn:E; cbn; try discriminate.
  intros H. f_equal; [now apply value_eq_str | now apply IH].
Qed.

Lemma list___eq___str (l1 l2 : list value) :
  list___eq__ l1 l2 = Ok true -> map str l1 = map str l2.
Proof.
  unfold list___eq__. destruct (Nat.eqb _ _); [|discriminate].
  apply list_items_eq_str.
Qed.

End ValueEquality.

(** ** Equality, rendering and hashing of policies *)

Section PolicyEquality.

Lemma Policy___eq___str (p q : policy) :
  Policy___eq__ p (OPolicy q) = Ok true -> Policy___str__ p = Policy___str__ q.
Proof.
  unfold Policy___eq__; cbn [attr bind].
  destruct (value_eq (policy_type p) (policy_type q)) as [[|]|e] eqn:T;
    cbn [bind negb]; try discriminate.
  destruct (list___eq__ (policy_sources p) (policy_sources q)) as [[|]|e] eqn:S;
    cbn [bind negb]; try discriminate.
  destruct (list___eq__ (policy_destinations p) (policy_destinations q))
    as [[|]|e] eqn:D; cbn [bind negb]; try discriminate.
  intros E; injection E as E. apply eqb_prop in E.
  unfold Policy___str__.
  now rewrite (value_eq_str _ _ T), (list___eq___str _ _ S),
    (list___eq___str _ _ D), E.
Qed.

(** The base comparison tells policies of different fixed kinds apart. *)
Lemma Policy___eq___kinds (p q : policy) (a b : string) :
  policy_type p = VStr a -> policy_type q = VStr b -> String.eqb a b = false ->
  Policy___eq__ p (OPolicy q) = Ok false.
Proof.
  intros Hp Hq Hab. unfold Policy___eq__; cbn [attr bind].
  rewrite Hp, Hq. unfold value_eq; cbn. now rewrite Hab.
Qed.

Lemma py_eq_policies_render (p q : policy) :
  py_eq (OPolicy p) (OPolicy q) = Ok true -> render p = render q.
Proof.
  destruct p as [t s d n|s d n|s d np|s d w],
           q as [t' s' d' n'|s' d' n'|s' d' np'|s' d' w'];
    unfold py_eq; cbn [type_of proper_subclass object___eq__ policy___eq__];
    unfold richcompare_eq, LoadBalancingPolicy___eq__, WaypointPolicy___eq__;
    cbn [attr_num_paths attr_waypoints].
  all: try match goal with
       | |- context [Policy___eq__ ?a (OPolicy ?b)] =>
           destruct (Policy___eq__ a (OPolicy b)) as [[|]|e] eqn:E;
           cbn [bind]; try discriminate
       end.
  all: try match goal with
       | E : Policy___eq__ ?a (OPolicy ?b) = Ok true |- _ =>
           try (erewrite Policy___eq___kinds in E;
                [discriminate E | reflexivity | reflexivity | reflexivity]);
           pose proof (Policy___eq___str _ _ E) as R
       end.
  (* base and reachability policies: the base rendering *)
  1-4: intros _; cbn [render]; now rewrite R.
  (* two load-balancing policies *)
  - destruct (value_eq np np') as [[|]|e] eqn:V; cbn [bind]; try discriminate.
    intros _. cbn [render]. unfold LoadBalancingPolicy___str__.
    now rewrite R, (value_eq_format_d _ _ V).
  (* two waypoint policies *)
  - destruct (value_eq w w') as [[|]|e] eqn:V; cbn [bind]; try discriminate.
    intros _. cbn [render]. unfold WaypointPolicy___str__.
    now rewrite R, (value_eq_str _ _ V).
Qed.

End PolicyEquality.

(** A policy compared with anything that is not a policy: the base
    comparison reads [other.type] first, which such an object lacks. *)
Lemma py_eq_policy_value (p : policy) (x : value) :
  py_eq (OPolicy p) (OValue x) = Raise AttributeError.
Proof. destruct p, x; reflexivity. Qed.

(** Rendering raises for one shape of policy only: a load-balancing policy
    whose [num_paths] is not an integer. *)
Lemma render_raises_only_on_num_paths (p : policy) :
  (exists s, render p = Ok s)
  \/ (exists S D v, p = LoadBalancingPolicy S D v
                    /\ (forall n, v <> VInt n)
                    /\ render p = Raise TypeError).
Proof.
  destruct p as [t S D n|S D n|S D v|S D w]; try (left; eexists; reflexivity).
  destruct v; try (right; exists S, D; eexists; repeat split; discriminate).
  left; eexists; reflexivity.
Qed.

(** C1: the load-balancing policy that [from_df] builds from a row whose
    specifics are the word [two] is equal to itself, yet it has no hash and
    no rendering: both raise [TypeError], through the [%d] of
    [LoadBalancingPolicy.__str__]. *)
Theorem equal_policy_without_hash :
  from_df (mkRow (VStr "PolicyType.LoadBalancingSimple") (VStr "r1")
             "{r2:eth0 (10.0.0.0/24)}" "two")
  = Ok (Some (LoadBalancingPolicy [VStr "r1"] [r2_eth0] (VStr "two")))
  /\ py_eq (OPolicy (LoadBalancingPolicy [VStr "r1"] [r2_eth0] (VStr "two")))
           (OPolicy (LoadBalancingPolicy [VStr "r1"] [r2_eth0] (VStr "two")))
     = Ok true
  /\ render (LoadBalancingPolicy [VStr "r1"] [r2_eth0] (VStr "two"))
     = Raise TypeError
  /\ policy___hash__ length_hash
       (LoadBalancingPolicy [VStr "r1"] [r2_eth0] (VStr "two"))
     = Raise TypeError.
Proof. repeat split. Qed.

(** X21: take two policies whose fields hold [None], integers, strings,
    kinds, sources or destinations and whose [negate] is a boolean. If
    [p == q] is true and rendering [p] gives a string, then rendering [q]
    gives the same string and both have the hash of that string. *)
Theorem equal_policies_same_rendering
    (hash_str : string -> Z) (p q : policy) (s : string) :
  py_eq (OPolicy p) (OPolicy q) = Ok true ->
  render p = Ok s ->
  render q = Ok s
  /\ policy___hash__ hash_str p = Ok (hash_str s)
  /\ policy___hash__ hash_str q = Ok (hash_str s).
Proof.
  intros E R. apply py_eq_policies_render in E.
  unfold policy___hash__. rewrite <- E, R. repeat split.
Qed.

Lemma equal_policies_same_rendering_witness :
  py_eq (OPolicy (Policy (VStr "reachability") [r1; VStr "r3"] [r2_eth0; VNone] true))
        (OPolicy (ReachabilityPolicy [r1; VStr "r3"] [r2_eth0; VNone] true))
  = Ok true
  /\ render (ReachabilityPolicy [r1; VStr "r3"] [r2_eth0; VNone] true)
     = Ok "reachability policy: {r1, r3}->{r2:eth0 (10.0.0.0/24), None}, negate=True"
  /\ policy___hash__ length_hash
       (Policy (VStr "reachability") [r1; VStr "r3"] [r2_eth0; VNone] true)
     = policy___hash__ length_hash
         (ReachabilityPolicy [r1; VStr "r3"] [r2_eth0; VNone] true).
Proof.
  destruct (equal_policies_same_rendering length_hash
              (Policy (VStr "reachability") [r1; VStr "r3"] [r2_eth0; VNone] true)
              (ReachabilityPolicy [r1; VStr "r3"] [r2_eth0; VNone] true)
              "reachability policy: {r1, r3}->{r2:eth0 (10.0.0.0/24), None}, negate=True"
              eq_refl eq_refl) as (R & H1 & H2).
  split; [reflexivity|]. split; [exact R|]. now rewrite H1, H2.
Defined.

(** A base policy against a variant with the same four fields, in either
    order: the comparison of the variant runs and fails on the extra field
    the base object lacks, so the two are never found equal. *)
Lemma py_eq_base_against_variant :
  py_eq (OPolicy (Policy (VStr "waypoint") [r1] [r2_eth0] false))
        (OPolicy (WaypointPolicy [r1] [r2_eth0] (VInt 1)))
  = Raise AttributeError
  /\ py_eq (OPolicy (WaypointPolicy [r1] [r2_eth0] (VInt 1)))
           (OPolicy (Policy (VStr "waypoint") [r1] [r2_eth0] false))
     = Raise AttributeError.
Proof. split; reflexivity. Qed.

(** C3: a policy compared with an integer or with a plain string does not
    answer [False]: [Policy.__eq__] raises [AttributeError]. *)
Theorem policy_eq_int_or_str_raises :
  py_eq (OPolicy (ReachabilityPolicy [r1] [r2_eth0] false)) (OValue (VInt 5))
  = Raise AttributeError
  /\ py_eq (OPolicy (ReachabilityPolicy [r1] [r2_eth0] false)) (OValue (VStr "r1"))
     = Raise AttributeError.
Proof. split; reflexivity. Qed.

(** ** [PolicyType]: equality with strings, and order *)

(** C6: a member equals the string [PolicyType.<Name>] exactly when [<Name>]
    is its own name; it is not equal to the string form of another member;
    and a string that does not split at dots into exactly two parts compares
    unequal. In every case the comparison answers, it does not raise. *)
Theorem PolicyType_eq_string (m : PolicyType) :
  (forall n : string,
      value_eq (VPolicyType m) (VStr ("PolicyType." ++ n))
      = Ok (String.eqb n (name_of m)))
  /\ (forall m' : PolicyType, m' <> m ->
      value_eq (VPolicyType m) (VStr (PolicyType___str__ m')) = Ok false)
  /\ (forall s : string, List.length (split "." s) <> 2 ->
      value_eq (VPolicyType m) (VStr s) = Ok false)
  /\ (forall s : string, exists b, value_eq (VPolicyType m) (VStr s) = Ok b).
Proof.
  repeat split.
  - intros n. rewrite value_eq_PolicyType_str. reflexivity.
  - intros m' NE. rewrite value_eq_PolicyType_str. f_equal.
    apply String.eqb_neq. intros E. now apply PolicyType_str_inj in E.
  - intros s L. rewrite value_eq_PolicyType_str. f_equal.
    apply String.eqb_neq. intros ->. apply L.
    unfold PolicyType___str__.
    now rewrite split_dot_after_class, split_dot_name.
  - intros s. rewrite value_eq_PolicyType_str. eauto.
Qed.

Lemma PolicyType_eq_string_witness :
  value_eq (VPolicyType Reachability) (VStr "PolicyType.Reachability") = Ok true
  /\ value_eq (VPolicyType Reachability) (VStr "PolicyType.Isolation") = Ok false
  /\ value_eq (VPolicyType Reachability) (VStr "garbage") = Ok false.
Proof.
  destruct (PolicyType_eq_string Reachability) as (A & B & C & _).
  split; [exact (A "Reachability")|].
  split; [apply (B Isolation); discriminate|].
  apply (C "garbage"). vm_compute. discriminate.
Defined.

(** C7: of [a < b], [a == b] and [a > b] exactly one holds for any two
    members, none of the three raises, and [<] is the order in which the
    class declares its members:
    Reachability, Isolation, Waypoint, LoadBalancingSimple,
    LoadBalancingEdgeDisjoint, LoadBalancingNodeDisjoint. *)
Theorem PolicyType_order_total :
  (forall a b : PolicyType,
      exists l e g : bool,
        py_lt (OValue (VPolicyType a)) (OValue (VPolicyType b)) = Ok l
        /\ py_eq (OValue (VPolicyType a)) (OValue (VPolicyType b)) = Ok e
        /\ py_gt (OValue (VPolicyType a)) (OValue (VPolicyType b)) = Ok g
        /\ ((l = true /\ e = false /\ g = false)
            \/ (l = false /\ e = true /\ g = false)
            \/ (l = false /\ e = false /\ g = true))
        /\ l = Nat.ltb (position a) (position b)
        /\ g = Nat.ltb (position b) (position a))
  /\ members = [Reachability; Isolation; Waypoint; LoadBalancingSimple;
                LoadBalancingEdgeDisjoint; LoadBalancingNodeDisjoint]
  /\ py_lt (OValue (VPolicyType Reachability)) (OValue (VPolicyType Isolation))
     = Ok true
  /\ py_lt (OValue (VPolicyType Isolation)) (OValue (VPolicyType Waypoint))
     = Ok true
  /\ py_lt (OValue (VPolicyType Waypoint))
           (OValue (VPolicyType LoadBalancingSimple)) = Ok true
  /\ py_lt (OValue (VPolicyType LoadBalancingSimple))
           (OValue (VPolicyType LoadBalancingEdgeDisjoint)) = Ok true
  /\ py_lt (OValue (VPolicyType LoadBalancingEdgeDisjoint))
           (OValue (VPolicyType LoadBalancingNodeDisjoint)) = Ok true.
Proof.
  split; [|repeat split].
  intros a b.
  destruct a, b; do 3 eexists;
    (split; [reflexivity|]); (split; [reflexivity|]); (split; [reflexivity|]);
    (split; [|split; reflexivity]); tauto.
Qed.

(** ** The factory *)

(** C8: for all sources, destinations and specifics, the factory builds for
    the kind Reachability a [ReachabilityPolicy] with [negate] false and for
    the kind Isolation a [ReachabilityPolicy] with [negate] true, both of
    type [reachability]. *)
Theorem get_policy_reachability_isolation
    (S D : list value) (specifics : value) :
  (exists p,
      get_policy (VPolicyType Reachability) S D specifics = Ok (Some p)
      /\ p = ReachabilityPolicy S D false
      /\ type_of (OPolicy p) = CReachabilityPolicy
      /\ policy_negate p = false
      /\ policy_type p = VStr "reachability")
  /\ (exists p,
      get_policy (VPolicyType Isolation) S D specifics = Ok (Some p)
      /\ p = ReachabilityPolicy S D true
      /\ type_of (OPolicy p) = CReachabilityPolicy
      /\ policy_negate p = true
      /\ policy_type p = VStr "reachability").
Proof. split; eexists; repeat split. Qed.

(** Whatever is handed over as the kind, member, string or other: when it
    compares unequal to the four kinds with a case, the result is [None]. *)
Lemma get_policy_no_case
    (t : value) (S D : list value) (specifics : value) :
  (forall k, In k implemented -> value_eq t (VPolicyType k) = Ok false) ->
  get_policy t S D specifics = Ok None.
Proof.
  intros H. unfold get_policy.
  rewrite !H by (cbn; tauto). reflexivity.
Qed.

(** C9: called with a kind that has no case of its own, the factory returns
    [None] and does not raise; the two disjoint-path load-balancing kinds are
    the kinds concerned. *)
Theorem get_policy_unsupported
    (k : PolicyType) (S D : list value) (specifics : value) :
  ~ In k implemented ->
  get_policy (VPolicyType k) S D specifics = Ok None
  /\ (k = LoadBalancingEdgeDisjoint \/ k = LoadBalancingNodeDisjoint).
Proof.
  intros H. destruct k; try (split; [reflexivity | tauto]);
    exfalso; apply H; cbn; tauto.
Qed.

Lemma get_policy_unsupported_witness :
  ~ In LoadBalancingEdgeDisjoint implemented
  /\ get_policy (VPolicyType LoadBalancingEdgeDisjoint) [r1] [r2_eth0] (VInt 2)
     = Ok None.
Proof.
  assert (H : ~ In LoadBalancingEdgeDisjoint implemented).
  { cbn. intros [E|[E|[E|[E|[]]]]]; discriminate E. }
  split; [exact H|].
  exact (proj1 (get_policy_unsupported LoadBalancingEdgeDisjoint
                  [r1] [r2_eth0] (VInt 2) H)).
Defined.

(** ** The destination pattern *)

Section PatternFacts.

Import Re.

Lemma span_app (c : ascii) (r rest : string) :
  contains c r = false -> span c (r ++ String c rest) = String.length r.
Proof.
  induction r as [|a r IH]; cbn.
  - intros _. unfold char_eqb. now rewrite Ascii.eqb_refl.
  - destruct (char_eqb a c); [discriminate|]. intros H. now rewrite IH.
Qed.

Lemma span_le_length (c : ascii) (s : string) : span c s <= String.length s.
Proof.
  induction s as [|a s IH]; cbn; [lia|]. destruct (char_eqb a c); lia.
Qed.

Lemma contains_take_span (c : ascii) (j : nat) (s : string) :
  j <= span c s -> contains c (take j s) = false.
Proof.
  revert s; induction j as [|j IH]; intros [|a s]; cbn; try reflexivity.
  destruct (char_eqb a c); [lia|]. intros H. apply IH. lia.
Qed.

Lemma try_lengths_first {A : Type} (k : nat) (f : nat -> option A) (r : A) :
  k <> 0 -> f k = Some r -> try_lengths k f = Some r.
Proof. destruct k; [congruence|]. intros _ E. cbn. now rewrite E. Qed.

Lemma try_lengths_some {A : Type} (k : nat) (f : nat -> option A) (r : A) :
  try_lengths k f = Some r -> exists j, 0 < j <= k /\ f j = Some r.
Proof.
  induction k as [|k IH]; cbn; [discriminate|].
  destruct (f (S k)) as [x|] eqn:E.
  - intros [= ->]. exists (S k). split; [lia | exact E].
  - intros H. destruct (IH H) as (j & Hj & Hf). exists j. split; [lia | exact Hf].
Qed.

Lemma length_zero (s : string) : String.length s = 0 -> s = "".
Proof. destruct s; [reflexivity | discriminate]. Qed.

(** A group followed by its own excluded character: when the text up to
    that character is not empty, the greedy first try takes exactly it. *)
Lemma match_group_greedy
    (name : string) (c : ascii) (p : list token) (pos : nat)
    (r rest : string) (m res : match_object) :
  r <> "" -> contains c r = false ->
  match_at p (pos + String.length r) (String c rest) ((name, r) :: m) = Some res ->
  match_at (Group name c :: p) pos (r ++ String c rest) m = Some res.
Proof.
  intros NE H E. cbn [match_at]. rewrite (span_app _ _ _ H).
  apply try_lengths_first.
  - intros Z. now apply length_zero in Z.
  - now rewrite take_app, drop_app.
Qed.

(** What a successful group gives: a non-empty text free of the excluded
    character, and the rest of the pattern matched behind it. *)
Lemma match_group_inv
    (name : string) (c : ascii) (p : list token) (pos : nat)
    (s : string) (m res : match_object) :
  match_at (Group name c :: p) pos s m = Some res ->
  exists r rest : string,
    s = r ++ rest /\ r <> "" /\ contains c r = false
    /\ match_at p (pos + String.length r) rest ((name, r) :: m) = Some res.
Proof.
  cbn [match_at]. intros H.
  apply try_lengths_some in H as (j & Hj & Hf).
  pose proof (span_le_length c s) as L.
  exists (take j s), (drop j s). repeat split.
  - now rewrite take_drop.
  - apply take_nonempty; lia.
  - apply contains_take_span; lia.
  - replace (String.length (take j s)) with j; [exact Hf|].
    clear - Hj L. assert (J : j <= String.length s) by lia. clear Hj L.
    revert s J; induction j as [|j IH]; intros [|a s]; cbn; intros J;
      try reflexivity; try lia.
    f_equal. apply IH. lia.
Qed.

Lemma match_lit_inv
    (c : ascii) (p : list token) (pos : nat) (s : string)
    (m res : match_object) :
  match_at (Lit c :: p) pos s m = Some res ->
  exists rest, s = String c rest /\ match_at p (S pos) rest m = Some res.
Proof.
  cbn [match_at]. destruct s as [|a s]; [discriminate|].
  destruct (char_eqb a c) eqn:E; [|discriminate].
  apply char_eqb_eq in E; subst a. intros H. now exists s.
Qed.

Lemma match_lit_intro
    (c : ascii) (p : list token) (pos : nat) (rest : string)
    (m res : match_object) :
  match_at p (S pos) rest m = Some res ->
  match_at (Lit c :: p) pos (String c rest) m = Some res.
Proof. intros H. cbn [match_at]. unfold char_eqb. now rewrite Ascii.eqb_refl. Qed.

Lemma match_bol (p : list token) (s : string) (m : match_object) :
  match_at (Bol :: p) 0 s m = match_at p 0 s m.
Proof. reflexivity. Qed.

Lemma at_end_inv (s : string) : at_end s = true -> s = "" \/ s = newline.
Proof.
  destruct s as [|a [|b s]]; cbn; try discriminate; [now left|].
  intros E. apply char_eqb_eq in E; subst a. now right.
Qed.

(** The shape of the strings the pattern matches, and of the match object:
    the three groups around a colon, a space with an opening parenthesis and
    a closing parenthesis, possibly followed by one newline. *)
Lemma re_match_pattern_inv (s : string) (res : match_object) :
  re_match pattern s = Some res ->
  exists r i n tail : string,
    s = r ++ ":" ++ i ++ " (" ++ n ++ ")" ++ tail
    /\ (tail = "" \/ tail = newline)
    /\ r <> "" /\ contains ":" r = false
    /\ i <> "" /\ contains " " i = false
    /\ n <> "" /\ contains ")" n = false
    /\ res = [("subnet", n); ("interface", i); ("router", r)].
Proof.
  unfold re_match, pattern. rewrite match_bol. intros H.
  apply match_group_inv in H as (r & s1 & -> & Hr & Cr & H).
  apply match_lit_inv in H as (s2 & -> & H).
  apply match_group_inv in H as (i & s3 & -> & Hi & Ci & H).
  apply match_lit_inv in H as (s4 & -> & H).
  apply match_lit_inv in H as (s5 & -> & H).
  apply match_group_inv in H as (n & s6 & -> & Hn & Cn & H).
  apply match_lit_inv in H as (tail & -> & H).
  cbn [match_at] in H. destruct (at_end tail) eqn:T; [|discriminate].
  injection H as <-. apply at_end_inv in T.
  exists r, i, n, tail. repeat split; try assumption.
Qed.

(** Rendered destinations with non-empty fields match, and the groups are
    the fields. *)
Lemma re_match_pattern_render (r i n : string) :
  r <> "" -> contains ":" r = false ->
  i <> "" -> contains " " i = false ->
  n <> "" -> contains ")" n = false ->
  re_match pattern (r ++ ":" ++ i ++ " (" ++ n ++ ")")
  = Some [("subnet", n); ("interface", i); ("router", r)].
Proof.
  intros Hr Cr Hi Ci Hn Cn.
  unfold re_match, pattern. rewrite match_bol.
  apply (match_group_greedy "router" ":"); [assumption..|].
  apply match_lit_intro.
  apply (match_group_greedy "interface" " "); [assumption..|].
  do 2 apply match_lit_intro.
  apply (match_group_greedy "subnet" ")"); [assumption..|].
  apply match_lit_intro. reflexivity.
Qed.

End PatternFacts.

(** ** Parsing destinations *)

Section Parsing.

Import Re.

Lemma from_string_unmatched (s : string) :
  re_match pattern s = None -> from_string s = Ok VNone.
Proof. unfold from_string. now intros ->. Qed.

(** [from_string] never raises: it answers [None] when the pattern does not
    match, and otherwise the destination made of the three groups. *)
Lemma from_string_cases (s : string) :
  (re_match pattern s = None /\ from_string s = Ok VNone)
  \/ (exists r i n tail : string,
        s = r ++ ":" ++ i ++ " (" ++ n ++ ")" ++ tail
        /\ (tail = "" \/ tail = newline)
        /\ contains ":" r = false /\ contains " " i = false
        /\ from_string s = Ok (VDestination (mkPolicyDestination r i n))).
Proof.
  destruct (re_match pattern s) as [res|] eqn:E.
  - right. pose proof (re_match_pattern_inv _ _ E)
      as (r & i & n & tail & Hs & Ht & _ & Cr & _ & Ci & _ & _ & ->).
    exists r, i, n, tail. repeat split; try assumption.
    unfold from_string. rewrite E. reflexivity.
  - left. split; [reflexivity|]. now apply from_string_unmatched.
Qed.

Lemma from_string_total (s : string) : exists v, from_string s = Ok v.
Proof.
  destruct (from_string_cases s) as [[_ H]|(r & i & n & t & _ & _ & _ & _ & H)];
    eauto.
Qed.

Lemma from_string_render (d : PolicyDestination) :
  router d <> "" -> contains ":" (router d) = false ->
  interface d <> "" -> contains " " (interface d) = false ->
  subnet d <> "" -> contains ")" (subnet d) = false ->
  from_string (PolicyDestination___str__ d) = Ok (VDestination d).
Proof.
  intros Hr Cr Hi Ci Hn Cn.
  unfold from_string, PolicyDestination___str__.
  rewrite re_match_pattern_render by assumption.
  now destruct d.
Qed.

Lemma last_char_rendering (r i n : string) :
  last_char (r ++ ":" ++ i ++ " (" ++ n ++ ")") = Some ")"%char.
Proof.
  replace (r ++ ":" ++ i ++ " (" ++ n ++ ")")
    with ((r ++ ":" ++ i ++ " (" ++ n) ++ ")").
  - apply last_char_app.
  - repeat (rewrite append_assoc; cbn [append]). reflexivity.
Qed.

(** What the documented grammar and the parser disagree on is one trailing
    newline: a string that is neither of the documented form nor such a
    form followed by a newline is answered with [None]. *)
Lemma from_string_rejects (s : string) :
  ~ matches_grammar s ->
  (forall s', s = s' ++ newline -> ~ matches_grammar s') ->
  from_string s = Ok VNone.
Proof.
  intros G N.
  destruct (from_string_cases s)
    as [[_ H]|(r & i & n & t & Hs & [->| ->] & Cr & Ci & _)]; [exact H| |].
  - exfalso. apply G. exists r, i, n. now rewrite Hs.
  - exfalso. apply (N (r ++ ":" ++ i ++ " (" ++ n ++ ")")).
    + rewrite Hs. repeat (rewrite append_assoc; cbn [append]). reflexivity.
    + now exists r, i, n.
Qed.

(** A comprehension over [from_string] parses every element, in place. *)
Lemma comprehension_from_string (l : list string) :
  exists ys : list value,
    comprehension from_string l = Ok ys
    /\ List.length ys = List.length l
    /\ forall j e, nth_error l j = Some e ->
         exists y, from_string e = Ok y /\ nth_error ys j = Some y.
Proof.
  induction l as [|x xs (ys & E & L & N)].
  - exists []. repeat split. intros [|j] e; discriminate.
  - destruct (from_string_total x) as (y & Hy).
    exists (y :: ys). cbn [comprehension]. rewrite Hy, E. cbn [bind].
    repeat split; [cbn; now rewrite L|].
    intros [|j] e; cbn [nth_error].
    + intros [= <-]. eauto.
    + apply N.
Qed.

End Parsing.

(** C4: rendering a destination and parsing the rendering gives a destination
    equal to the original, provided the router is free of colons, the
    interface free of spaces and the subnet free of closing parentheses, and
    none of the three fields is empty. *)
Theorem from_string_str_roundtrip (d : PolicyDestination) :
  router d <> "" -> contains ":" (router d) = false ->
  interface d <> "" -> contains " " (interface d) = false ->
  subnet d <> "" -> contains ")" (subnet d) = false ->
  exists v : value,
    from_string (PolicyDestination___str__ d) = Ok v
    /\ v = VDestination d
    /\ py_eq (OValue v) (OValue (VDestination d)) = Ok true.
Proof.
  intros Hr Cr Hi Ci Hn Cn. exists (VDestination d).
  split; [now apply from_string_render|]. split; [reflexivity|].
  unfold py_eq, richcompare_eq; cbn. now rewrite !String.eqb_refl.
Qed.

Lemma from_string_str_roundtrip_witness :
  exists v : value,
    from_string
      (PolicyDestination___str__ (mkPolicyDestination "r2" "eth0" "10.0.0.0/24"))
    = Ok v
    /\ v = r2_eth0
    /\ py_eq (OValue v) (OValue r2_eth0) = Ok true.
Proof.
  apply (from_string_str_roundtrip
           (mkPolicyDestination "r2" "eth0" "10.0.0.0/24"));
    cbn; (discriminate || reflexivity).
Defined.

(** C4, as stated without the three fields being non-empty: a destination
    with an empty router has no colon in its router, no space in its
    interface and no closing parenthesis in its subnet, yet its rendering
    parses to [None], which is not equal to it. *)
Lemma from_string_str_empty_router :
  contains ":" (router (mkPolicyDestination "" "eth0" "10.0.0.0/24")) = false
  /\ contains " " (interface (mkPolicyDestination "" "eth0" "10.0.0.0/24")) = false
  /\ contains ")" (subnet (mkPolicyDestination "" "eth0" "10.0.0.0/24")) = false
  /\ from_string
       (PolicyDestination___str__ (mkPolicyDestination "" "eth0" "10.0.0.0/24"))
     = Ok VNone
  /\ py_eq (OValue VNone)
       (OValue (VDestination (mkPolicyDestination "" "eth0" "10.0.0.0/24")))
     = Ok false.
Proof. repeat split. Qed.

(** The same holds of an empty interface and of an empty subnet. *)
Lemma from_string_empty_fields :
  from_string (PolicyDestination___str__ (mkPolicyDestination "r2" "" "10.0.0.0/24"))
  = Ok VNone
  /\ from_string (PolicyDestination___str__ (mkPolicyDestination "r2" "eth0" ""))
     = Ok VNone.
Proof. split; reflexivity. Qed.

(** C5: a well-formed destination followed by a newline is not of the
    documented form, yet [from_string] does not answer [None] on it: the
    [$] of the pattern also matches just before a final newline. *)
Theorem from_string_accepts_trailing_newline :
  ~ matches_grammar ("r2:eth0 (10.0.0.0/24)" ++ newline)
  /\ from_string ("r2:eth0 (10.0.0.0/24)" ++ newline) = Ok r2_eth0.
Proof.
  split; [|reflexivity].
  intros (r & i & n & E & _).
  apply (f_equal last_char) in E. rewrite last_char_rendering in E.
  discriminate E.
Qed.

(** ** Reading policies from rows *)

(** Given a kind it has a case for, as the member or as its string form, the
    factory builds a policy around the very lists it was handed. *)
Lemma get_policy_implemented
    (t : value) (k : PolicyType) (S D : list value) (specifics : value) :
  In k implemented -> value_eq t (VPolicyType k) = Ok true ->
  exists p, get_policy t S D specifics = Ok (Some p)
            /\ policy_sources p = S /\ policy_destinations p = D.
Proof.
  intros K E. unfold get_policy.
  destruct (value_eq_total t (VPolicyType Reachability)) as ([|] & E1);
    rewrite E1; cbn [bind]; [eexists; repeat split|].
  destruct (value_eq_total t (VPolicyType Isolation)) as ([|] & E2);
    rewrite E2; cbn [bind]; [eexists; repeat split|].
  destruct (value_eq_total t (VPolicyType Waypoint)) as ([|] & E3);
    rewrite E3; cbn [bind]; [eexists; repeat split|].
  destruct (value_eq_total t (VPolicyType LoadBalancingSimple)) as ([|] & E4);
    rewrite E4; cbn [bind]; [eexists; repeat split|].
  exfalso. cbn in K. destruct K as [<-|[<-|[<-|[<-|[]]]]]; congruence.
Qed.

(** C2, as stated: with the bare name [Reachability] in the [type] field the
    row compares unequal to every kind, and [from_df] returns [None]. *)
Lemma from_df_bare_kind_name :
  from_df (mkRow (VStr "Reachability") (VStr "r1") "{r2:eth0 (10.0.0.0/24)}" "0")
  = Ok None.
Proof. reflexivity. Qed.

(** C2: for the row with [type] the string [PolicyType.Reachability], source
    [r1], Destinations [{r2:eth0 (10.0.0.0/24)}] and specifics [0], [from_df]
    returns a [ReachabilityPolicy] whose sources are the one element [r1] and
    whose destinations are the one destination with router [r2], interface
    [eth0] and subnet [10.0.0.0/24]. *)
Theorem from_df_qualified_kind_name :
  from_df (mkRow (VStr "PolicyType.Reachability") (VStr "r1")
             "{r2:eth0 (10.0.0.0/24)}" "0")
  = Ok (Some (ReachabilityPolicy
                [VStr "r1"]
                [VDestination (mkPolicyDestination "r2" "eth0" "10.0.0.0/24")]
                false)).
Proof. reflexivity. Qed.

(** The factory never raises on field values. *)
Lemma get_policy_total
    (t : value) (S D : list value) (specifics : value) :
  exists r, get_policy t S D specifics = Ok r.
Proof.
  unfold get_policy.
  destruct (value_eq_total t (VPolicyType Reachability)) as ([|] & ->);
    cbn [bind]; eauto.
  destruct (value_eq_total t (VPolicyType Isolation)) as ([|] & ->);
    cbn [bind]; eauto.
  destruct (value_eq_total t (VPolicyType Waypoint)) as ([|] & ->);
    cbn [bind]; eauto.
  destruct (value_eq_total t (VPolicyType LoadBalancingSimple)) as ([|] & ->);
    cbn [bind]; eauto.
Qed.

(** *** The conversion of the [specifics] column *)

Lemma is_digit_below_128 (a : ascii) :
  is_digit a = true -> (nat_of_ascii a <? 128)%nat = true ->
  is_ascii_digit a = true.
Proof.
  unfold is_digit. destruct (is_ascii_digit a); [reflexivity|].
  cbn [orb]. intros D L. apply Nat.ltb_lt in L.
  repeat (apply orb_true_iff in D as [D|D]); apply Nat.eqb_eq in D; lia.
Qed.

Lemma all_digits_ascii (s : string) :
  all_digits s = true -> is_ascii s = true -> all_ascii_digits s = true.
Proof.
  induction s as [|a s IH]; cbn [all_digits is_ascii all_ascii_digits];
    [reflexivity|].
  intros D A. apply andb_true_iff in D as [D1 D2].
  apply andb_true_iff in A as [A1 A2].
  now rewrite (is_digit_below_128 a D1 A1), IH.
Qed.

(** On ASCII text within the limit on digits the conversion does not
    raise: all-digit text becomes its decimal value, any other text is
    kept. *)
Lemma specifics_converts (s : string) :
  is_ascii s = true -> String.length s <= int_max_str_digits ->
  (if isdigit s then n <- int s ;; Ok (VInt n) else Ok (VStr s))
  = Ok (if isdigit s then VInt (digits_value 0 s) else VStr s).
Proof.
  intros A L. destruct (isdigit s) eqn:D; [|reflexivity].
  unfold int. destruct s as [|a s]; [discriminate D|].
  cbn [isdigit] in D. rewrite (all_digits_ascii _ D A). cbn [negb].
  apply Nat.ltb_ge in L. now rewrite L.
Qed.

(** All-digit text that [int] rejects: where a character is not a decimal
    digit, or where there are more characters than the limit on digits. *)
Lemma specifics_rejected (s : string) :
  isdigit s = true ->
  all_ascii_digits s = false \/ int_max_str_digits < String.length s ->
  int s = Raise ValueError.
Proof.
  intros D H. unfold int. destruct s as [|a s]; [reflexivity|].
  destruct H as [H|H]; [now rewrite H|].
  destruct (all_ascii_digits (String a s)); [|reflexivity].
  cbn [negb]. apply Nat.ltb_lt in H. now rewrite H.
Qed.

(** C10: in the row whose Destinations are [r2:eth0 (10.0.0.0/24)] followed
    by a newline, and [r3 eth1], neither element is of the documented form,
    yet the policy [from_df] returns has [None] at the second place only: at
    the first it has the destination [r2], [eth0], [10.0.0.0/24]. *)
Theorem from_df_keeps_destination_before_newline :
  split ", " (slice_1_m1 ("{r2:eth0 (10.0.0.0/24)" ++ newline ++ ", r3 eth1}"))
  = ["r2:eth0 (10.0.0.0/24)" ++ newline; "r3 eth1"]
  /\ ~ matches_grammar ("r2:eth0 (10.0.0.0/24)" ++ newline)
  /\ ~ matches_grammar "r3 eth1"
  /\ from_df (mkRow (VStr "PolicyType.Reachability") (VStr "r1")
                ("{r2:eth0 (10.0.0.0/24)" ++ newline ++ ", r3 eth1}") "0")
     = Ok (Some (ReachabilityPolicy [VStr "r1"] [r2_eth0; VNone] false)).
Proof.
  split; [reflexivity|]. split; [|split; [|reflexivity]].
  - intros (r & i & n & E & _).
    apply (f_equal last_char) in E. rewrite last_char_rendering in E.
    discriminate E.
  - intros (r & i & n & E & _).
    apply (f_equal last_char) in E. rewrite last_char_rendering in E.
    discriminate E.
Qed.

(** * Further properties of the module *)

(** ** [==] on field values is an equivalence *)

Section ValueEquivalence.

Ltac reduce_value_eq E :=
  try rewrite value_eq_PolicyType_str in E;
  try rewrite value_eq_str_PolicyType in E;
  try rewrite value_eq_PolicyType in E;
  try (unfold value_eq in E; cbn in E; discriminate E);
  try (unfold value_eq in E; cbn in E).

Lemma same_member_sym (a b : PolicyType) : same_member a b = same_member b a.
Proof.
  unfold same_member.
  destruct (PolicyType_eq_dec a b), (PolicyType_eq_dec b a); congruence.
Qed.

Lemma value_eq_refl (v : value) : value_eq v v = Ok true.
Proof.
  destruct v as [|n|s|t|s|d]; unfold value_eq; cbn;
    rewrite ?Z.eqb_refl, ?String.eqb_refl, ?same_member_refl; reflexivity.
Qed.

(** The two operands can be swapped, outcome for outcome. *)
Lemma value_eq_sym (v w : value) : value_eq v w = value_eq w v.
Proof.
  destruct v as [|n|s|t|s|d], w as [|n'|s'|t'|s'|d'];
    rewrite ?value_eq_PolicyType_str, ?value_eq_str_PolicyType,
      ?value_eq_PolicyType; try reflexivity.
  - unfold value_eq; cbn. now rewrite Z.eqb_sym.
  - unfold value_eq; cbn. now rewrite String.eqb_sym.
  - now rewrite same_member_sym.
  - unfold value_eq; cbn. now rewrite String.eqb_sym.
  - unfold value_eq; cbn.
    now rewrite (String.eqb_sym (router d)), (String.eqb_sym (interface d)),
      (String.eqb_sym (subnet d)).
Qed.

(** Two field values are equal when they are the same value, or when one is
    a kind and the other the string form of that kind. *)
Lemma value_eq_true_inv (v w : value) :
  value_eq v w = Ok true ->
  v = w
  \/ (exists m, v = VPolicyType m /\ w = VStr (PolicyType___str__ m))
  \/ (exists m, v = VStr (PolicyType___str__ m) /\ w = VPolicyType m).
Proof.
  destruct v as [|n|s|t|s|d], w as [|n'|s'|t'|s'|d']; intros E;
    try (left; reflexivity); reduce_value_eq E; injection E as E.
  - apply Z.eqb_eq in E. left. now subst.
  - apply String.eqb_eq in E. left. now subst.
  - apply String.eqb_eq in E. right; right. exists t'. now subst.
  - apply String.eqb_eq in E. right; left. exists t. now subst.
  - apply same_member_true in E. left. now subst.
  - apply String.eqb_eq in E. left. destruct s, s'; cbn in E. now subst.
  - apply andb_true_iff in E as [E E3]. apply andb_true_iff in E as [E1 E2].
    apply String.eqb_eq in E1, E2, E3. left.
    destruct d, d'; cbn in *. now subst.
Qed.

Lemma value_eq_trans (u v w : value) :
  value_eq u v = Ok true -> value_eq v w = Ok true -> value_eq u w = Ok true.
Proof.
  intros E F.
  destruct (value_eq_true_inv _ _ E) as [->|[(m & -> & ->)|(m & -> & ->)]];
    [exact F| |].
  - destruct (value_eq_true_inv _ _ F) as [<-|[(m' & G & _)|(m' & G & ->)]];
      [exact E | discriminate G |].
    assert (M : m' = m) by (apply PolicyType_str_inj; congruence).
    subst. apply value_eq_refl.
  - destruct (value_eq_true_inv _ _ F) as [<-|[(m' & G & ->)|(m' & G & _)]];
      [exact E | | discriminate G].
    injection G as <-. apply value_eq_refl.
Qed.

(** X1: on the objects held in policy fields ([None], integers, strings,
    kinds, sources, destinations) [==] never raises and is reflexive,
    symmetric and transitive, the string form of a kind counting as that
    kind. *)
Theorem value_eq_equivalence :
  (forall v w, exists b, value_eq v w = Ok b)
  /\ (forall v, value_eq v v = Ok true)
  /\ (forall v w, value_eq v w = value_eq w v)
  /\ (forall u v w,
        value_eq u v = Ok true -> value_eq v w = Ok true ->
        value_eq u w = Ok true).
Proof.
  repeat split.
  - apply value_eq_total.
  - apply value_eq_refl.
  - apply value_eq_sym.
  - apply value_eq_trans.
Qed.

Lemma value_eq_equivalence_witness :
  value_eq (VStr "PolicyType.Waypoint") (VPolicyType Waypoint) = Ok true
  /\ value_eq (VPolicyType Waypoint) (VStr "PolicyType.Waypoint") = Ok true
  /\ value_eq (VStr "PolicyType.Waypoint") (VStr "PolicyType.Waypoint") = Ok true.
Proof.
  split; [reflexivity|]. split; [reflexivity|].
  exact (proj2 (proj2 (proj2 value_eq_equivalence))
           (VStr "PolicyType.Waypoint") (VPolicyType Waypoint)
           (VStr "PolicyType.Waypoint") eq_refl eq_refl).
Defined.

End ValueEquivalence.

(** ** [==] on policies is an equivalence *)

Section PolicyEquivalence.

Lemma list_items_eq_sym (l1 l2 : list value) :
  list_items_eq l1 l2 = list_items_eq l2 l1.
Proof.
  revert l2; induction l1 as [|x xs IH]; intros [|y ys]; cbn; try reflexivity.
  now rewrite (value_eq_sym x y), IH.
Qed.

Lemma list___eq___sym (l1 l2 : list value) :
  list___eq__ l1 l2 = list___eq__ l2 l1.
Proof.
  unfold list___eq__. now rewrite Nat.eqb_sym, list_items_eq_sym.
Qed.

(** Lists are equal exactly when they are equal item by item. *)
Lemma list___eq___true (l1 l2 : list value) :
  list___eq__ l1 l2 = Ok true <->
  Forall2 (fun v w => value_eq v w = Ok true) l1 l2.
Proof.
  unfold list___eq__. split.
  - destruct (Nat.eqb _ _); [|discriminate].
    revert l2; induction l1 as [|x xs IH]; intros [|y ys]; cbn;
      try discriminate; [constructor|].
    destruct (value_eq x y) as [[|]|e] eqn:E; cbn; try discriminate.
    intros H. constructor; [exact E | now apply IH].
  - intros H. rewrite (Forall2_length H), Nat.eqb_refl.
    induction H as [|x y xs ys E _ IH]; cbn; [reflexivity|].
    now rewrite E.
Qed.

Lemma list___eq___refl (l : list value) : list___eq__ l l = Ok true.
Proof.
  apply list___eq___true. induction l; constructor; auto using value_eq_refl.
Qed.

Lemma list___eq___trans (l1 l2 l3 : list value) :
  list___eq__ l1 l2 = Ok true -> list___eq__ l2 l3 = Ok true ->
  list___eq__ l1 l3 = Ok true.
Proof.
  rewrite !list___eq___true. intros H. revert l3.
  induction H as [|x y xs ys E _ IH]; intros l3 G; inversion G; subst;
    constructor; eauto using value_eq_trans.
Qed.

Lemma list___eq___total (l1 l2 : list value) : exists b, list___eq__ l1 l2 = Ok b.
Proof.
  unfold list___eq__. destruct (Nat.eqb _ _); [|eauto].
  revert l2; induction l1 as [|x xs IH]; intros [|y ys]; cbn; eauto.
  destruct (value_eq_total x y) as ([|] & ->); cbn; eauto.
Qed.

(** The base comparison of two policies is the conjunction of its four
    tests. *)
Lemma Policy___eq___true (p q : policy) :
  Policy___eq__ p (OPolicy q) = Ok true <->
  value_eq (policy_type p) (policy_type q) = Ok true
  /\ list___eq__ (policy_sources p) (policy_sources q) = Ok true
  /\ list___eq__ (policy_destinations p) (policy_destinations q) = Ok true
  /\ policy_negate p = policy_negate q.
Proof.
  unfold Policy___eq__; cbn [attr bind].
  destruct (value_eq_total (policy_type p) (policy_type q)) as ([|] & ->);
    cbn [bind negb]; [|split; [discriminate | intros (E & _); discriminate E]].
  destruct (list___eq___total (policy_sources p) (policy_sources q))
    as ([|] & ->); cbn [bind negb];
    [|split; [discriminate | intros (_ & E & _); discriminate E]].
  destruct (list___eq___total (policy_destinations p) (policy_destinations q))
    as ([|] & ->); cbn [bind negb];
    [|split; [discriminate | intros (_ & _ & E & _); discriminate E]].
  split.
  - intros [= E]. apply eqb_prop in E. auto.
  - intros (_ & _ & _ & ->). now rewrite eqb_reflx.
Qed.

Lemma Policy___eq___total (p q : policy) :
  exists b, Policy___eq__ p (OPolicy q) = Ok b.
Proof.
  unfold Policy___eq__; cbn [attr bind].
  destruct (value_eq_total (policy_type p) (policy_type q)) as ([|] & ->);
    cbn [bind negb]; eauto.
  destruct (list___eq___total (policy_sources p) (policy_sources q))
    as ([|] & ->); cbn [bind negb]; eauto.
  destruct (list___eq___total (policy_destinations p) (policy_destinations q))
    as ([|] & ->); cbn [bind negb]; eauto.
Qed.

Lemma Policy___eq___sym (p q : policy) :
  Policy___eq__ p (OPolicy q) = Policy___eq__ q (OPolicy p).
Proof.
  unfold Policy___eq__; cbn [attr bind].
  rewrite (value_eq_sym (policy_type p)),
    (list___eq___sym (policy_sources p)),
    (list___eq___sym (policy_destinations p)).
  now destruct (policy_negate p), (policy_negate q).
Qed.

(** Between two policies one [__eq__] decides: that of the right operand
    when its class derives from the class of the left one. *)
Lemma py_eq_policies (p q : policy) :
  py_eq (OPolicy p) (OPolicy q) =
  if proper_subclass (type_of (OPolicy q)) (type_of (OPolicy p))
  then policy___eq__ q (OPolicy p) else policy___eq__ p (OPolicy q).
Proof.
  unfold py_eq, richcompare_eq; cbn [object___eq__].
  destruct (proper_subclass _ _).
  - now destruct (policy___eq__ q (OPolicy p)).
  - now destruct (policy___eq__ p (OPolicy q)).
Qed.

(** Two policies are equal exactly when the base comparison holds and
    either both are of the base or reachability class, or both are of the
    same other variant with equal extra fields. *)
Lemma py_eq_policies_true (p q : policy) :
  py_eq (OPolicy p) (OPolicy q) = Ok true <->
  Policy___eq__ p (OPolicy q) = Ok true /\ same_extra p q.
Proof.
  rewrite py_eq_policies.
  destruct (Policy___eq___total p q) as (b & B).
  pose proof (Policy___eq___sym p q) as Sy. rewrite B in Sy.
  destruct p as [t s d n|s d n|s d np|s d w],
           q as [t' s' d' n'|s' d' n'|s' d' np'|s' d' w'];
    cbn [type_of proper_subclass policy___eq__ same_extra];
    unfold LoadBalancingPolicy___eq__, WaypointPolicy___eq__;
    rewrite <- ?Sy, ?B; cbn [bind attr_num_paths attr_waypoints];
    destruct b; cbn [bind]; try tauto;
    try (split; [discriminate | tauto]);
    try (split; [discriminate | intros (E & _); discriminate E]).
Qed.

Lemma same_extra_trans (p q r : policy) :
  same_extra p q -> same_extra q r -> same_extra p r.
Proof.
  destruct p, q, r; cbn; try tauto; apply value_eq_trans.
Qed.

Lemma same_extra_refl (p : policy) : same_extra p p.
Proof. destruct p; cbn; auto using value_eq_refl. Qed.

End PolicyEquivalence.

(** X2: every policy of any of the four classes whose fields hold [None],
    integers, strings, kinds, sources or destinations, and whose [negate] is
    a boolean, is equal to itself; the comparison does not raise. *)
Theorem py_eq_policy_refl (p : policy) : py_eq (OPolicy p) (OPolicy p) = Ok true.
Proof.
  apply py_eq_policies_true. split; [|apply same_extra_refl].
  apply Policy___eq___true.
  auto using value_eq_refl, list___eq___refl.
Qed.

(** X3: between two policies [p == q] and [q == p] have the same outcome:
    the same boolean, or the same exception. *)
Theorem py_eq_policy_sym (p q : policy) :
  py_eq (OPolicy p) (OPolicy q) = py_eq (OPolicy q) (OPolicy p).
Proof.
  rewrite !py_eq_policies.
  pose proof (Policy___eq___sym p q) as Sy.
  destruct p as [t s d n|s d n|s d np|s d w],
           q as [t' s' d' n'|s' d' n'|s' d' np'|s' d' w'];
    cbn [type_of proper_subclass policy___eq__];
    unfold LoadBalancingPolicy___eq__, WaypointPolicy___eq__;
    rewrite <- ?Sy; try reflexivity;
    cbn [attr_num_paths attr_waypoints];
    try (erewrite Policy___eq___kinds by reflexivity; reflexivity).
  - destruct (Policy___eq__ _ _) as [[|]|e]; cbn [bind]; try reflexivity.
    apply value_eq_sym.
  - destruct (Policy___eq__ _ _) as [[|]|e]; cbn [bind]; try reflexivity.
    apply value_eq_sym.
Qed.

(** X4: equality of policies is transitive. *)
Theorem py_eq_policy_trans (p q r : policy) :
  py_eq (OPolicy p) (OPolicy q) = Ok true ->
  py_eq (OPolicy q) (OPolicy r) = Ok true ->
  py_eq (OPolicy p) (OPolicy r) = Ok true.
Proof.
  rewrite !py_eq_policies_true, !Policy___eq___true.
  intros ((T1 & S1 & D1 & N1) & X1) ((T2 & S2 & D2 & N2) & X2).
  repeat split;
    eauto using value_eq_trans, list___eq___trans, same_extra_trans, eq_trans.
Qed.

Lemma py_eq_policy_trans_witness :
  py_eq (OPolicy (Policy (VStr "reachability") [r1] [r2_eth0] true))
        (OPolicy (ReachabilityPolicy [r1] [r2_eth0] true)) = Ok true
  /\ py_eq (OPolicy (ReachabilityPolicy [r1] [r2_eth0] true))
          (OPolicy (Policy (VStr "reachability") [r1] [r2_eth0] true)) = Ok true
  /\ py_eq (OPolicy (Policy (VStr "reachability") [r1] [r2_eth0] true))
          (OPolicy (Policy (VStr "reachability") [r1] [r2_eth0] true)) = Ok true.
Proof.
  split; [reflexivity|]. split; [reflexivity|].
  exact (py_eq_policy_trans
           (Policy (VStr "reachability") [r1] [r2_eth0] true)
           (ReachabilityPolicy [r1] [r2_eth0] true)
           (Policy (VStr "reachability") [r1] [r2_eth0] true)
           eq_refl eq_refl).
Defined.

(** X5: with a policy on the right, a source or a destination on the left
    answers [False], while [None], an integer, a string or a kind on the left
    raise [AttributeError], as every such comparison does with the policy on
    the left. *)
Theorem py_eq_value_policy (p : policy) :
  (forall s, py_eq (OValue (VSource s)) (OPolicy p) = Ok false)
  /\ (forall d, py_eq (OValue (VDestination d)) (OPolicy p) = Ok false)
  /\ py_eq (OValue VNone) (OPolicy p) = Raise AttributeError
  /\ (forall n, py_eq (OValue (VInt n)) (OPolicy p) = Raise AttributeError)
  /\ (forall s, py_eq (OValue (VStr s)) (OPolicy p) = Raise AttributeError)
  /\ (forall t, py_eq (OValue (VPolicyType t)) (OPolicy p) = Raise AttributeError)
  /\ (forall x, py_eq (OPolicy p) (OValue x) = Raise AttributeError).
Proof.
  repeat split; intros; destruct p; try reflexivity.
  all: apply py_eq_policy_value.
Qed.


(** ** What the parser accepts *)

(** X7: when [from_string] answers a destination, its router is non-empty
    and free of colons, its interface non-empty and free of spaces, its
    subnet non-empty and free of closing parentheses, and the string parsed
    is the rendering of that destination, possibly followed by one
    newline. *)
Theorem from_string_parsed_shape (s : string) (d : PolicyDestination) :
  from_string s = Ok (VDestination d) ->
  (s = PolicyDestination___str__ d \/ s = PolicyDestination___str__ d ++ newline)
  /\ router d <> "" /\ contains ":" (router d) = false
  /\ interface d <> "" /\ contains " " (interface d) = false
  /\ subnet d <> "" /\ contains ")" (subnet d) = false.
Proof.
  unfold from_string.
  destruct (Re.re_match pattern s) as [res|] eqn:E; [|discriminate].
  apply re_match_pattern_inv in E
    as (r & i & n & tail & -> & Ht & Hr & Cr & Hi & Ci & Hn & Cn & ->).
  cbn. intros [= <-]. cbn. repeat split; try assumption.
  unfold PolicyDestination___str__; cbn [router interface subnet].
  destruct Ht as [->| ->]; [left | right].
  - reflexivity.
  - repeat (rewrite append_assoc; cbn [append]). reflexivity.
Qed.

Lemma from_string_parsed_shape_witness :
  from_string ("r2:eth0 (10.0.0.0/24)" ++ newline) = Ok r2_eth0
  /\ ("r2:eth0 (10.0.0.0/24)" ++ newline
      = PolicyDestination___str__ (mkPolicyDestination "r2" "eth0" "10.0.0.0/24")
      \/ "r2:eth0 (10.0.0.0/24)" ++ newline
         = PolicyDestination___str__ (mkPolicyDestination "r2" "eth0" "10.0.0.0/24")
           ++ newline).
Proof.
  split; [reflexivity|].
  exact (proj1 (from_string_parsed_shape
                  ("r2:eth0 (10.0.0.0/24)" ++ newline)
                  (mkPolicyDestination "r2" "eth0" "10.0.0.0/24") eq_refl)).
Defined.

(** ** The factory over all its inputs *)

Section Factory.

(** What compares equal to a kind: the kind, and its string form. *)
Lemma value_eq_kind_inv (t : value) (k : PolicyType) :
  value_eq t (VPolicyType k) = Ok true ->
  t = VPolicyType k \/ t = VStr (PolicyType___str__ k).
Proof.
  intros E.
  destruct (value_eq_true_inv _ _ E) as [->|[(m & _ & G)|(m & -> & G)]];
    [now left | discriminate G |].
  injection G as <-. now right.
Qed.

Lemma value_eq_kind_false (t : value) (k : PolicyType) :
  t <> VPolicyType k -> t <> VStr (PolicyType___str__ k) ->
  value_eq t (VPolicyType k) = Ok false.
Proof.
  intros A B. destruct (value_eq_total t (VPolicyType k)) as ([|] & E);
    [|exact E].
  apply value_eq_kind_inv in E as [E|E]; contradiction.
Qed.

(** X8: the factory treats the string form of a kind as the kind itself;
    Waypoint and LoadBalancingSimple give the variant holding [specifics] as
    its extra field; and [None], an integer, a string, a source or a
    destination in the place of the kind gives [None] unless it is the string
    form of one of the four kinds with a case. *)
Theorem get_policy_by_kind (S D : list value) (specifics : value) :
  (forall k,
      get_policy (VStr (PolicyType___str__ k)) S D specifics
      = get_policy (VPolicyType k) S D specifics)
  /\ get_policy (VPolicyType Waypoint) S D specifics
     = Ok (Some (WaypointPolicy S D specifics))
  /\ get_policy (VPolicyType LoadBalancingSimple) S D specifics
     = Ok (Some (LoadBalancingPolicy S D specifics))
  /\ (forall t,
        (forall k, In k implemented ->
                   t <> VPolicyType k /\ t <> VStr (PolicyType___str__ k)) ->
        get_policy t S D specifics = Ok None).
Proof.
  repeat split.
  - intros k; destruct k; reflexivity.
  - intros t H. apply get_policy_no_case. intros k K.
    destruct (H k K). now apply value_eq_kind_false.
Qed.

Lemma get_policy_by_kind_witness :
  get_policy (VStr "Reachability") [r1] [r2_eth0] (VInt 0) = Ok None.
Proof.
  apply (proj2 (proj2 (proj2 (get_policy_by_kind [r1] [r2_eth0] (VInt 0))))).
  intros k K. split; [discriminate|].
  cbn in K. destruct K as [<-|[<-|[<-|[<-|[]]]]]; discriminate.
Defined.

(** X9: a policy that comes out of the factory holds the very source and
    destination lists that went in, so that its coverage is the product of
    their lengths; and its [negate] is set exactly when the kind handed over
    is Isolation. *)
Theorem get_policy_fields
    (t : value) (S D : list value) (specifics : value) (p : policy) :
  get_policy t S D specifics = Ok (Some p) ->
  policy_sources p = S
  /\ policy_destinations p = D
  /\ get_coverage p = List.length S * List.length D
  /\ (policy_negate p = true <-> value_eq t (VPolicyType Isolation) = Ok true).
Proof.
  unfold get_policy.
  destruct (value_eq_total t (VPolicyType Reachability)) as ([|] & E1);
    rewrite E1; cbn [bind].
  { intros [= <-]. repeat split; try discriminate.
    apply value_eq_kind_inv in E1 as [->| ->]; discriminate. }
  destruct (value_eq_total t (VPolicyType Isolation)) as ([|] & E2);
    rewrite E2; cbn [bind].
  { intros [= <-]. repeat split. }
  destruct (value_eq_total t (VPolicyType Waypoint)) as ([|] & E3);
    rewrite E3; cbn [bind].
  { intros [= <-]. repeat split; discriminate. }
  destruct (value_eq_total t (VPolicyType LoadBalancingSimple)) as ([|] & E4);
    rewrite E4; cbn [bind]; [|discriminate].
  intros [= <-]. repeat split; discriminate.
Qed.

Lemma get_policy_fields_witness :
  get_policy (VStr "PolicyType.Isolation") [r1; VStr "r3"] [r2_eth0] VNone
  = Ok (Some (ReachabilityPolicy [r1; VStr "r3"] [r2_eth0] true))
  /\ get_coverage (ReachabilityPolicy [r1; VStr "r3"] [r2_eth0] true) = 2
  /\ policy_negate (ReachabilityPolicy [r1; VStr "r3"] [r2_eth0] true) = true.
Proof.
  destruct (get_policy_fields (VStr "PolicyType.Isolation") [r1; VStr "r3"]
              [r2_eth0] VNone
              (ReachabilityPolicy [r1; VStr "r3"] [r2_eth0] true) eq_refl)
    as (_ & _ & C & N).
  split; [reflexivity|]. split; [exact C|]. apply N. reflexivity.
Defined.

End Factory.

(** ** Rows *)

Section Rows.

(** With specifics that are ASCII text within the limit on digits,
    [from_df] is the factory applied to the one source, the parsed elements
    and the converted specifics; neither step raises. *)
Lemma from_df_steps (df : row) :
  is_ascii (specifics df) = true ->
  String.length (specifics df) <= int_max_str_digits ->
  exists (ys : list value) (sp : value),
    comprehension from_string (split ", " (slice_1_m1 (Destinations df))) = Ok ys
    /\ List.length ys = List.length (split ", " (slice_1_m1 (Destinations df)))
    /\ (forall j e,
          nth_error (split ", " (slice_1_m1 (Destinations df))) j = Some e ->
          exists y, from_string e = Ok y /\ nth_error ys j = Some y)
    /\ sp = (if isdigit (specifics df)
             then VInt (digits_value 0 (specifics df))
             else VStr (specifics df))
    /\ from_df df = get_policy (type df) [source df] ys sp.
Proof.
  intros A Lm.
  destruct (comprehension_from_string
              (split ", " (slice_1_m1 (Destinations df))))
    as (ys & C & L & N).
  exists ys. eexists. split; [exact C|]. split; [exact L|].
  split; [exact N|]. split; [reflexivity|].
  unfold from_df. rewrite C; cbn [bind].
  now rewrite (specifics_converts _ A Lm).
Qed.

Lemma slice_1_m1_short (s : string) :
  String.length s <= 2 -> slice_1_m1 s = "".
Proof.
  unfold slice_1_m1. intros H.
  destruct s as [|a [|b [|c s]]]; try reflexivity.
  cbn [String.length] in H. lia.
Qed.

(** X10: take a row of an implemented kind whose specifics are ASCII text
    of at most 4300 characters. The policy read from it has the [source]
    cell, as it is, for its only source, and one destination entry per piece
    of the Destinations string between the separators; its coverage is the
    number of those pieces and never zero. Destinations of at most two
    characters, the empty braces among them, give the single entry [None]. *)
Theorem from_df_sources_and_coverage (df : row) (k : PolicyType) :
  is_ascii (specifics df) = true ->
  String.length (specifics df) <= int_max_str_digits ->
  In k implemented ->
  value_eq (type df) (VPolicyType k) = Ok true ->
  exists p : policy,
    from_df df = Ok (Some p)
    /\ policy_sources p = [source df]
    /\ get_coverage p
       = List.length (split ", " (slice_1_m1 (Destinations df)))
    /\ 1 <= get_coverage p
    /\ (String.length (Destinations df) <= 2 -> policy_destinations p = [VNone]).
Proof.
  intros A Lm K E.
  destruct (from_df_steps df A Lm) as (ys & sp & C & L & _ & _ & F).
  destruct (get_policy_implemented (type df) k [source df] ys sp K E)
    as (p & G & HS & HD).
  exists p. rewrite F.
  assert (Cov : get_coverage p
                = List.length (split ", " (slice_1_m1 (Destinations df)))).
  { unfold get_coverage. rewrite HS, HD, L. cbn. lia. }
  repeat split; try assumption.
  - rewrite Cov.
    pose proof (split_nonempty ", " (slice_1_m1 (Destinations df))).
    destruct (split ", " (slice_1_m1 (Destinations df))); [congruence | cbn; lia].
  - intros Sh. rewrite HD. rewrite (slice_1_m1_short _ Sh) in C.
    cbn in C. congruence.
Qed.

Lemma specifics_x_fits :
  is_ascii "x" = true /\ String.length "x" <= int_max_str_digits.
Proof. split; [reflexivity | apply Nat.leb_le; reflexivity]. Qed.

Lemma from_df_sources_and_coverage_witness :
  exists p : policy,
    from_df (mkRow (VPolicyType Isolation) (VStr "r1") "{}" "x") = Ok (Some p)
    /\ policy_sources p = [VStr "r1"]
    /\ get_coverage p = 1
    /\ policy_destinations p = [VNone].
Proof.
  assert (K : In Isolation implemented) by (cbn; tauto).
  destruct (from_df_sources_and_coverage
              (mkRow (VPolicyType Isolation) (VStr "r1") "{}" "x")
              Isolation (proj1 specifics_x_fits) (proj2 specifics_x_fits)
              K eq_refl) as (p & F & S & C & _ & D).
  exists p. repeat split; [exact F | exact S | exact C |].
  apply D. cbn. lia.
Defined.




(** X19: take a row of an implemented kind (the member or its string form)
    whose specifics are ASCII text of at most 4300 characters. [from_df]
    returns a policy with one destination entry per piece of the
    Destinations string, in order, each the result of [from_string] on that
    piece: the entry of a piece the pattern does not match is [None]. *)
Theorem from_df_keeps_unparsed_as_none (df : row) (k : PolicyType) :
  is_ascii (specifics df) = true ->
  String.length (specifics df) <= int_max_str_digits ->
  In k implemented ->
  value_eq (type df) (VPolicyType k) = Ok true ->
  exists p : policy,
    from_df df = Ok (Some p)
    /\ List.length (policy_destinations p)
       = List.length (split ", " (slice_1_m1 (Destinations df)))
    /\ forall (j : nat) (e : string),
         nth_error (split ", " (slice_1_m1 (Destinations df))) j = Some e ->
         exists y : value,
           from_string e = Ok y
           /\ nth_error (policy_destinations p) j = Some y
           /\ (Re.re_match pattern e = None -> y = VNone).
Proof.
  intros A Lm K E.
  destruct (from_df_steps df A Lm) as (ys & sp & _ & L & N & _ & F).
  destruct (get_policy_implemented (type df) k [source df] ys sp K E)
    as (p & G & _ & D).
  exists p. rewrite F, D. repeat split; [exact G | exact L |].
  intros j e H. destruct (N j e H) as (y & Hy & Hn).
  exists y. repeat split; try assumption.
  intros U. apply from_string_unmatched in U. congruence.
Qed.

Lemma specifics_3_fits :
  is_ascii "3" = true /\ String.length "3" <= int_max_str_digits.
Proof. split; [reflexivity | apply Nat.leb_le; reflexivity]. Qed.

Lemma from_df_keeps_unparsed_as_none_witness :
  from_df (mkRow (VStr "PolicyType.Waypoint") (VStr "r1")
             "{r2:eth0 (10.0.0.0/24), r3 eth1}" "3")
  = Ok (Some (WaypointPolicy [VStr "r1"] [r2_eth0; VNone] (VInt 3)))
  /\ exists p : policy,
       from_df (mkRow (VStr "PolicyType.Waypoint") (VStr "r1")
                  "{r2:eth0 (10.0.0.0/24), r3 eth1}" "3")
       = Ok (Some p)
       /\ List.length (policy_destinations p) = 2.
Proof.
  assert (K : In Waypoint implemented) by (cbn; tauto).
  split; [reflexivity|].
  destruct (from_df_keeps_unparsed_as_none
              (mkRow (VStr "PolicyType.Waypoint") (VStr "r1")
                 "{r2:eth0 (10.0.0.0/24), r3 eth1}" "3")
              Waypoint (proj1 specifics_3_fits) (proj2 specifics_3_fits)
              K eq_refl) as (p & F & L & _).
  exists p. split; [exact F | exact L].
Defined.

(** X20: whatever its kind and its Destinations, a row raises [ValueError]
    in [from_df] when its specifics pass [isdigit] and [int] rejects them:
    when a character is a superscript digit, or when there are more than
    4300 characters. *)
Theorem from_df_specifics_rejected (df : row) :
  isdigit (specifics df) = true ->
  all_ascii_digits (specifics df) = false
  \/ int_max_str_digits < String.length (specifics df) ->
  from_df df = Raise ValueError.
Proof.
  intros D H. unfold from_df.
  destruct (comprehension_from_string
              (split ", " (slice_1_m1 (Destinations df))))
    as (ys & C & _).
  rewrite C, D, (specifics_rejected _ D H). reflexivity.
Qed.

Lemma from_df_specifics_rejected_witness :
  from_df (mkRow (VStr "PolicyType.Waypoint") (VStr "r1")
             "{r2:eth0 (10.0.0.0/24)}" (String (ascii_of_nat 178) ""))
  = Raise ValueError.
Proof.
  apply (from_df_specifics_rejected
           (mkRow (VStr "PolicyType.Waypoint") (VStr "r1")
              "{r2:eth0 (10.0.0.0/24)}" (String (ascii_of_nat 178) "")));
    [reflexivity | left; reflexivity].
Defined.

End Rows.

(** ** Ordering *)

Section Ordering.

Lemma string_compare_refl (s : string) : String.compare s s = Eq.
Proof.
  induction s as [|a s IH]; cbn; [reflexivity|].
  unfold Ascii.compare. now rewrite N.compare_refl.
Qed.



(** X13: destinations are ordered by router alone. Two destinations on the
    same router are neither [<] nor [>] each other and both [<=] and [>=]
    each other, and they are equal only if they are the same destination: of
    two that differ in interface or subnet none of [<], [==], [>] holds. *)
Theorem PolicyDestination_order_same_router (a b : PolicyDestination) :
  router a = router b ->
  py_lt (OValue (VDestination a)) (OValue (VDestination b)) = Ok false
  /\ py_gt (OValue (VDestination a)) (OValue (VDestination b)) = Ok false
  /\ py_le (OValue (VDestination a)) (OValue (VDestination b)) = Ok true
  /\ py_ge (OValue (VDestination a)) (OValue (VDestination b)) = Ok true
  /\ (py_eq (OValue (VDestination a)) (OValue (VDestination b)) = Ok true
      <-> a = b).
Proof.
  intros R. unfold py_lt, py_gt, py_le, py_ge, py_order, py_eq, richcompare_eq.
  cbn. unfold String.ltb, String.leb. rewrite R, string_compare_refl.
  repeat split.
  - intros [= E]. apply andb_true_iff in E as [E E3].
    apply andb_true_iff in E as [E1 E2].
    apply String.eqb_eq in E2, E3. destruct a, b; cbn in *. now subst.
  - intros ->. now rewrite !String.eqb_refl.
Qed.

Lemma PolicyDestination_order_same_router_witness :
  py_lt (OValue (VDestination (mkPolicyDestination "r2" "eth0" "10.0.0.0/24")))
        (OValue (VDestination (mkPolicyDestination "r2" "eth1" "10.0.1.0/24")))
  = Ok false
  /\ py_gt (OValue (VDestination (mkPolicyDestination "r2" "eth0" "10.0.0.0/24")))
          (OValue (VDestination (mkPolicyDestination "r2" "eth1" "10.0.1.0/24")))
     = Ok false
  /\ py_eq (OValue (VDestination (mkPolicyDestination "r2" "eth0" "10.0.0.0/24")))
          (OValue (VDestination (mkPolicyDestination "r2" "eth1" "10.0.1.0/24")))
     = Ok false.
Proof.
  destruct (PolicyDestination_order_same_router
              (mkPolicyDestination "r2" "eth0" "10.0.0.0/24")
              (mkPolicyDestination "r2" "eth1" "10.0.1.0/24") eq_refl)
    as (L & G & _).
  split; [exact L|]. split; [exact G | reflexivity].
Defined.

(** X14: the ordering operators raise [TypeError] across classes: a kind
    against anything that is not a kind, a source against a destination,
    and a policy against anything at all, policies included, in either
    order and for each of [<], [>], [<=], [>=]. *)
Theorem order_across_classes (op : order_op) :
  (forall (t : PolicyType) (x : value),
      (forall t', x <> VPolicyType t') ->
      py_order op (OValue (VPolicyType t)) (OValue x) = Raise TypeError
      /\ py_order op (OValue x) (OValue (VPolicyType t)) = Raise TypeError)
  /\ (forall (s : PolicySource) (d : PolicyDestination),
      py_order op (OValue (VSource s)) (OValue (VDestination d)) = Raise TypeError
      /\ py_order op (OValue (VDestination d)) (OValue (VSource s))
         = Raise TypeError)
  /\ (forall (p : policy) (o : object),
      py_order op (OPolicy p) o = Raise TypeError
      /\ py_order op o (OPolicy p) = Raise TypeError).
Proof.
  repeat split.
  - destruct x; try reflexivity. now elim (H t0).
  - destruct x; try reflexivity. now elim (H t0).
  - destruct p, o as [[| | | | |]|[| | |]]; reflexivity.
  - destruct p, o as [[| | | | |]|[| | |]]; reflexivity.
Qed.

Lemma order_across_classes_witness :
  py_order OpLt (OValue (VPolicyType Reachability)) (OValue (VInt 1))
  = Raise TypeError.
Proof.
  apply (proj1 (order_across_classes OpLt) Reachability (VInt 1)).
  discriminate.
Defined.

(** X15: on kinds [<=] holds exactly when [<] or [==] does, [>=] exactly
    when [<] does not, and both follow the order of declaration. *)
Theorem PolicyType_le_ge (a b : PolicyType) :
  exists l e : bool,
    py_lt (OValue (VPolicyType a)) (OValue (VPolicyType b)) = Ok l
    /\ py_eq (OValue (VPolicyType a)) (OValue (VPolicyType b)) = Ok e
    /\ py_le (OValue (VPolicyType a)) (OValue (VPolicyType b)) = Ok (l || e)
    /\ py_ge (OValue (VPolicyType a)) (OValue (VPolicyType b)) = Ok (negb l)
    /\ py_le (OValue (VPolicyType a)) (OValue (VPolicyType b))
       = Ok (Nat.leb (position a) (position b))
    /\ py_ge (OValue (VPolicyType a)) (OValue (VPolicyType b))
       = Ok (Nat.leb (position b) (position a)).
Proof. destruct a, b; do 2 eexists; repeat split. Qed.

End Ordering.

(** ** From a row to the rendering *)

Section RowRendering.








Lemma length_app (x y : string) :
  String.length (x ++ y) = String.length x + String.length y.
Proof. induction x as [|a x IH]; cbn; [reflexivity | now rewrite IH]. Qed.







End RowRendering.

(** ** Hashing sources and destinations *)

Section ValueHashing.

Variable hash_str : string -> Z.

Lemma append_longer (a b : string) (c : ascii) : a ++ String c b <> a.
Proof.
  intros E. apply (f_equal String.length) in E.
  rewrite length_app in E. cbn in E. lia.
Qed.

(** X17: sources that are equal have the same hash, and so have
    destinations that are equal. The converse fails for destinations: moving
    a colon-separated part from the router to the interface gives an unequal
    destination with the same rendering, hence the same hash. *)
Theorem hash_of_sources_and_destinations :
  (forall s s' : PolicySource,
      value_eq (VSource s) (VSource s') = Ok true ->
      PolicySource___hash__ hash_str s = PolicySource___hash__ hash_str s')
  /\ (forall d d' : PolicyDestination,
      value_eq (VDestination d) (VDestination d') = Ok true ->
      PolicyDestination___hash__ hash_str d
      = PolicyDestination___hash__ hash_str d')
  /\ (forall a b i n : string,
      value_eq (VDestination (mkPolicyDestination (a ++ ":" ++ b) i n))
               (VDestination (mkPolicyDestination a (b ++ ":" ++ i) n))
      = Ok false
      /\ PolicyDestination___hash__ hash_str
           (mkPolicyDestination (a ++ ":" ++ b) i n)
         = PolicyDestination___hash__ hash_str
             (mkPolicyDestination a (b ++ ":" ++ i) n)).
Proof.
  repeat split.
  - intros s s' E. apply value_eq_str in E. cbn in E.
    unfold PolicySource___hash__. now rewrite E.
  - intros d d' E. apply value_eq_str in E. cbn in E.
    unfold PolicyDestination___hash__. now rewrite E.
  - unfold value_eq; cbn.
    replace (String.eqb (a ++ String ":" b) a) with false; [reflexivity|].
    symmetry. apply String.eqb_neq. apply append_longer.
  - unfold PolicyDestination___hash__, PolicyDestination___str__; cbn.
    now rewrite !append_assoc.
Qed.

End ValueHashing.

Lemma hash_of_sources_and_destinations_witness :
  value_eq r2_eth0 (VDestination (mkPolicyDestination "r2" "eth0" "10.0.0.0/24"))
  = Ok true
  /\ PolicyDestination___hash__ length_hash
       (mkPolicyDestination "r2" "eth0" "10.0.0.0/24")
     = PolicyDestination___hash__ length_hash
         (mkPolicyDestination "r2" "eth0" "10.0.0.0/24").
Proof.
  split; [reflexivity|].
  apply (proj1 (proj2 (hash_of_sources_and_destinations length_hash))
           (mkPolicyDestination "r2" "eth0" "10.0.0.0/24")
           (mkPolicyDestination "r2" "eth0" "10.0.0.0/24")).
  reflexivity.
Defined.

(** ** The specifics of a row *)

(** X18: a leading zero in specifics made of decimal digits does not
    matter: as long as the longer text stays within the limit of 4300
    characters, the row with one more zero in front gives the same result. *)
Theorem from_df_leading_zero (t s : value) (dests sp : string) :
  isdigit sp = true ->
  is_ascii sp = true ->
  String.length sp < int_max_str_digits ->
  from_df (mkRow t s dests (String "0" sp)) = from_df (mkRow t s dests sp).
Proof.
  intros Dg A L. unfold from_df; cbn [specifics type source Destinations].
  assert (A0 : is_ascii (String "0" sp) = true) by exact A.
  assert (L0 : String.length (String "0" sp) <= int_max_str_digits)
    by (cbn [String.length]; lia).
  assert (L1 : String.length sp <= int_max_str_digits) by lia.
  rewrite (specifics_converts _ A0 L0), (specifics_converts _ A L1).
  assert (Z : isdigit (String "0" sp) = true).
  { destruct sp as [|a sp]; [discriminate Dg | exact Dg]. }
  rewrite Z, Dg. reflexivity.
Qed.

Lemma from_df_leading_zero_witness :
  from_df (mkRow (VStr "PolicyType.Waypoint") (VStr "r1")
             "{r2:eth0 (10.0.0.0/24)}" "07")
  = from_df (mkRow (VStr "PolicyType.Waypoint") (VStr "r1")
               "{r2:eth0 (10.0.0.0/24)}" "7").
Proof.
  apply (from_df_leading_zero (VStr "PolicyType.Waypoint") (VStr "r1")
           "{r2:eth0 (10.0.0.0/24)}" "7");
    [reflexivity | reflexivity | apply Nat.ltb_lt; reflexivity].
Defined.
